(** * epp2json: the parsing core of the EPP (EDI++ 1.11) to JSON converter

    A shallow embedding of [epp2json.go].  Go strings are byte sequences and
    are modelled by [string] (a sequence of 8-bit [ascii]); slices are lists;
    the map of [GroupInvoicesByMonth] and of [EPPData.Info] is a [gmap].
    A Go call that returns [(value, error)] and may also stop in a run-time
    panic yields an [outcome]: the value, the error, or the panic.

    The Go standard library functions the package calls ([strings.Index],
    [strings.Split], [strings.TrimSpace], [strings.Contains],
    [encoding/csv.Reader.Read], [time.Parse], [time.Time.Format],
    [time.Time.After], [time.Time.Before]) are modelled in the modules
    [strings], [csv] and [time] below, as of Go 1.21, the version the
    package asks for; [strconv.ParseFloat] is a parameter of the
    development.

    The functions come first, the properties after them: the date parser,
    the section splitter, the type filter, the header and item mappers,
    the document assembler and the grouping by month, then the query
    helpers, the switches of the command line, and the splitter, the
    tokenizer and the assembler on documents written row by row. *)

From Stdlib Require Import ZArith Ascii Uint63 Floats DecimalString.
From stdpp Require Import base option list strings gmap.

(** ** Results of Go calls *)

(** The errors of [encoding/csv] that [Reader.Read] can report on an
    in-memory reader with the default settings. *)
Inductive csvError : Type :=
| EOF           (* io.EOF: no record left *)
| ErrBareQuote  (* bare quote in a non-quoted field *)
| ErrQuote.     (* extraneous or missing quote in a quoted field *)

(** The phase named by the message [ParseEPPFromString] wraps an error in. *)
Inductive phase : Type := InfoPhase | HeaderPhase | ItemPhase.

Inductive error : Type :=
| CSVReadError (e : csvError)         (* "błąd czytania CSV: %v" *)
| PhaseError (p : phase) (e : error). (* "błąd podczas parsowania ...: %v" *)

(** A run-time panic of an index expression [a[i]] with [len(a) <= i]. *)
Inductive panic : Type := IndexOutOfRange (index len : nat).

Inductive outcome (A : Type) : Type :=
| Returned (a : A)
| Failed (e : error)
| Panicked (p : panic).
Arguments Returned {A} a.
Arguments Failed {A} e.
Arguments Panicked {A} p.

#[global] Instance outcome_ret : MRet outcome := @Returned.
#[global] Instance outcome_bind : MBind outcome := λ A B f m,
  match m with
  | Returned a => f a
  | Failed e => Failed e
  | Panicked p => Panicked p
  end.

(** [fields[i]] on a slice: a panic when the index is out of range. *)
Definition index {A} (fields : list A) (i : nat) : outcome A :=
  match fields !! i with
  | Some v => Returned v
  | None => Panicked (IndexOutOfRange i (length fields))
  end.

(** ** Bytes *)

Definition byte_eqb (a b : ascii) : bool := Ascii.eqb a b.

(** ['0' <= c && c <= '9'] *)
Definition is_digit (c : ascii) : bool :=
  (48 <=? nat_of_ascii c) && (nat_of_ascii c <=? 57).

Definition digit_val (c : ascii) : Z := Z.of_nat (nat_of_ascii c) - 48.

Definition LF : ascii := ascii_of_nat 10.
Definition CR : ascii := ascii_of_nat 13.
Definition quote : ascii := ascii_of_nat 34.
Definition comma : ascii := ascii_of_nat 44.

(** ** Package [strings] *)

Module strings.

(** [s[n:]] and [s[:n]] *)
Fixpoint slice_from (s : string) (n : nat) : string :=
  match n, s with
  | S n', String _ s' => slice_from s' n'
  | _, _ => s
  end.

Fixpoint slice_to (s : string) (n : nat) : string :=
  match n, s with
  | S n', String c s' => String c (slice_to s' n')
  | _, _ => EmptyString
  end.

(** [strings.HasPrefix] *)
Fixpoint HasPrefix (s prefix : string) {struct prefix} : bool :=
  match prefix, s with
  | EmptyString, _ => true
  | String a prefix', String b s' => byte_eqb a b && HasPrefix s' prefix'
  | String _ _, EmptyString => false
  end.

(** [strings.Index]: the byte offset of the first occurrence of [substr]
    in [s]; [None] stands for Go's [-1]. *)
Fixpoint Index (s substr : string) : option nat :=
  if HasPrefix s substr then Some 0
  else match s with
       | EmptyString => None
       | String _ s' => S <$> Index s' substr
       end.

(** [strings.Split(s, sep)] for a non-empty separator ([genSplit] with
    [sepSave = 0] and [n = -1]).  Go sizes the result with
    [Count(s, sep) + 1], capped at [len(s) + 1], and leaves the loop as soon
    as [Index] finds nothing: the loop runs at most [len(s)] times. *)
Fixpoint genSplit (n : nat) (s sep : string) : list string :=
  match n with
  | O => [s]
  | S n' =>
      match Index s sep with
      | None => [s]
      | Some m => slice_to s m :: genSplit n' (slice_from s (m + String.length sep)) sep
      end
  end.

Definition Split (s sep : string) : list string :=
  genSplit (String.length s) s sep.

(** [strings.Join] *)
Fixpoint Join (elems : list string) (sep : string) : string :=
  match elems with
  | [] => ""
  | [e] => e
  | e :: rest => e +:+ sep +:+ Join rest sep
  end.

(** [asciiSpace]: tab, line feed, vertical tab, form feed, carriage
    return and space. *)
Definition asciiSpace (c : ascii) : bool :=
  let n := nat_of_ascii c in
  ((9 <=? n) && (n <=? 13)) || (n =? 32).

(** The white space runes above U+007F, by their UTF-8 encodings:
    U+0085 and U+00A0 take two bytes; U+1680, U+2000..U+200A, U+2028,
    U+2029, U+202F, U+205F and U+3000 take three. *)
Definition space2 (c0 c1 : ascii) : bool :=
  (nat_of_ascii c0 =? 194) &&
  ((nat_of_ascii c1 =? 133) || (nat_of_ascii c1 =? 160)).

Definition space3 (c0 c1 c2 : ascii) : bool :=
  let '(b0, b1, b2) := (nat_of_ascii c0, nat_of_ascii c1, nat_of_ascii c2) in
  ((b0 =? 225) && (b1 =? 154) && (b2 =? 128)) ||
  ((b0 =? 226) && (b1 =? 128) &&
     (((128 <=? b2) && (b2 <=? 138)) || (b2 =? 168) || (b2 =? 169) || (b2 =? 175))) ||
  ((b0 =? 226) && (b1 =? 129) && (b2 =? 159)) ||
  ((b0 =? 227) && (b1 =? 128) && (b2 =? 128)).

(** [TrimLeftFunc(s, unicode.IsSpace)] on bytes: strip white space runes
    decoded from the front. *)
Fixpoint trimLeft (s : list ascii) : list ascii :=
  match s with
  | [] => []
  | c0 :: s1 =>
      if asciiSpace c0 then trimLeft s1
      else match s1 with
           | [] => s
           | c1 :: s2 =>
               if space2 c0 c1 then trimLeft s2
               else match s2 with
                    | [] => s
                    | c2 :: s3 => if space3 c0 c1 c2 then trimLeft s3 else s
                    end
           end
  end.

(** [TrimRightFunc(s, unicode.IsSpace)] on the reversed bytes: the last
    rune is decoded backwards from the end. *)
Fixpoint trimRightRev (r : list ascii) : list ascii :=
  match r with
  | [] => []
  | c0 :: r1 =>
      if asciiSpace c0 then trimRightRev r1
      else match r1 with
           | [] => r
           | c1 :: r2 =>
               if space2 c1 c0 then trimRightRev r2
               else match r2 with
                    | [] => r
                    | c2 :: r3 => if space3 c2 c1 c0 then trimRightRev r3 else r
                    end
           end
  end.

(** [strings.TrimSpace] *)
Definition TrimSpace (s : string) : string :=
  String.string_of_list_ascii
    (rev (trimRightRev (rev (trimLeft (String.list_ascii_of_string s))))).

(** [strings.Contains]: [Index(s, substr) >= 0] *)
Definition Contains (s substr : string) : bool :=
  match Index s substr with
  | Some _ => true
  | None => false
  end.

End strings.

(** ** Package [encoding/csv]

    [csv.NewReader(strings.NewReader(line)).Read()] with the default
    settings: [Comma = ','], no comment character, [LazyQuotes] and
    [TrimLeadingSpace] off, [FieldsPerRecord = 0]. *)

Module csv.

(** Successive results of [bufio.Reader.ReadSlice('\n')]: each chunk runs
    up to and including the next line feed; the last one may lack it. *)
Fixpoint readSlices (s : list ascii) : list (list ascii) :=
  match s with
  | [] => []
  | c :: s' =>
      if byte_eqb c LF then [c] :: readSlices s'
      else match readSlices s' with
           | [] => [[c]]
           | l :: ls => (c :: l) :: ls
           end
  end.

(** [Reader.readLine] on one chunk, seen from its end: a carriage return
    before end of input is dropped, and a final "\r\n" becomes "\n". *)
Definition normalizeLine (line : list ascii) : list ascii :=
  match rev line with
  | c0 :: r =>
      if byte_eqb c0 LF then
        match r with
        | c1 :: r' => if byte_eqb c1 CR then rev (LF :: r') else line
        | [] => line
        end
      else if byte_eqb c0 CR then rev r
      else line
  | [] => line
  end.

(** The lines [readLine] returns before it reports [io.EOF]. *)
Definition readLines (input : string) : list string :=
  String.string_of_list_ascii ∘ normalizeLine <$>
    readSlices (String.list_ascii_of_string input).

Definition lengthNL (line : string) : nat :=
  match rev (String.list_ascii_of_string line) with
  | c :: _ => if byte_eqb c LF then 1 else 0
  | [] => 0
  end.

(** [readRecord] skips lines that hold nothing but the line ending. *)
Fixpoint skipEmptyLines (lines : list string) : list string :=
  match lines with
  | line :: rest =>
      if String.length line =? lengthNL line then skipEmptyLines rest else lines
  | [] => []
  end.

(** Where [readRecord] stands inside the record. *)
Inductive fieldState : Type :=
| FieldStart                     (* top of the [parseField] loop *)
| InBare (field : string)        (* within a non-quoted field *)
| InQuoted (field : string)      (* within a quoted field *)
| AfterQuote (field : string).   (* past a quote met within a quoted field *)

Inductive action : Type :=
| Next (st : fieldState) (emit : option string)
| Stop (emit : string)
| Abort (e : csvError).

Definition push (field : string) (c : ascii) : string :=
  field +:+ String c EmptyString.

(** A byte of a non-quoted field: the field ends at the comma or at the
    line ending, and a quote in it is [ErrBareQuote]. *)
Definition bareByte (field : string) (c : ascii) (last : bool) : action :=
  if byte_eqb c comma then Next FieldStart (Some field)
  else if byte_eqb c quote then Abort ErrBareQuote
  else if byte_eqb c LF && last then Stop field
  else Next (InBare (push field c)) None.

(** [last] says that [c] is the final byte of the current line. *)
Definition onByte (st : fieldState) (c : ascii) (last : bool) : action :=
  match st with
  | FieldStart =>
      if byte_eqb c quote then Next (InQuoted "") None
      else bareByte "" c last
  | InBare field => bareByte field c last
  | InQuoted field =>
      if byte_eqb c quote then Next (AfterQuote field) None
      else Next (InQuoted (push field c)) None
  | AfterQuote field =>
      if byte_eqb c quote then Next (InQuoted (push field quote)) None
      else if byte_eqb c comma then Next FieldStart (Some field)
      else if byte_eqb c LF && last then Stop field
      else Abort ErrQuote
  end.

Definition isEmpty (s : string) : bool :=
  match s with EmptyString => true | _ => false end.

(** The [parseField] loop of [readRecord].  A quoted field that reaches
    the end of its line goes on with the next line; when there is none the
    quote is never closed, which is [ErrQuote]. *)
Fixpoint parseRecord (more : list string) (line : string) (st : fieldState)
    (dst : list string) {struct more} : csvError + list string :=
  (fix parseLine (line : string) (st : fieldState) (dst : list string)
       {struct line} : csvError + list string :=
     match line with
     | EmptyString =>
         match st with
         | FieldStart => inr (dst ++ [""])
         | InBare field | AfterQuote field => inr (dst ++ [field])
         | InQuoted field =>
             match more with
             | [] => inl ErrQuote
             | next :: more' => parseRecord more' next (InQuoted field) dst
             end
         end
     | String c rest =>
         match onByte st c (isEmpty rest) with
         | Next st' None => parseLine rest st' dst
         | Next st' (Some field) => parseLine rest st' (dst ++ [field])
         | Stop field => inr (dst ++ [field])
         | Abort e => inl e
         end
     end) line st dst.

(** [Reader.Read] on a fresh reader over [input]: the first record. *)
Definition Read (input : string) : csvError + list string :=
  match skipEmptyLines (readLines input) with
  | [] => inl EOF
  | line :: more => parseRecord more line FieldStart []
  end.

End csv.

(** ** Package [time] *)

Module time.

(** A [time.Time] in UTC, by the civil fields [time.Date] normalises to.
    The zero value is January 1, year 1, 00:00:00 UTC. *)
Record Time : Type := mkTime {
  Year : Z; Month : Z; Day : Z;
  Hour : Z; Minute : Z; Second : Z; Nanosecond : Z }.

Definition zero : Time := mkTime 1 1 1 0 0 0 0.

Definition eqb (t u : Time) : bool :=
  (Year t =? Year u)%Z && (Month t =? Month u)%Z && (Day t =? Day u)%Z &&
  (Hour t =? Hour u)%Z && (Minute t =? Minute u)%Z &&
  (Second t =? Second u)%Z && (Nanosecond t =? Nanosecond u)%Z.

Definition IsZero (t : Time) : bool := eqb t zero.

(** [time.Date] in UTC.  [Parse] calls it with components it has
    range-checked, on which the normalisation of [Date] is the identity. *)
Definition Date (year month day hour min sec nsec : Z) : Time :=
  mkTime year month day hour min sec nsec.

Definition isLeap (year : Z) : bool :=
  ((year mod 4 =? 0) && (negb (year mod 100 =? 0) || (year mod 400 =? 0)))%Z.

Definition daysIn (month year : Z) : Z :=
  if (month =? 2)%Z && isLeap year then 29%Z
  else if (month =? 2)%Z then 28%Z
  else if ((month =? 4) || (month =? 6) || (month =? 9) || (month =? 11))%Z then 30%Z
  else 31%Z.

Definition isDigit (s : string) (i : nat) : bool :=
  match String.get i s with
  | Some c => is_digit c
  | None => false
  end.

(** [leadingInt]: the leading digits of [s] as a number, and the rest;
    an error past 2^63. *)
Fixpoint leadingInt (x : Z) (s : string) : option (Z * string) :=
  match s with
  | String c s' =>
      if is_digit c then
        if (2 ^ 63 / 10 <? x)%Z then None
        else let x' := (x * 10 + digit_val c)%Z in
             if (2 ^ 63 <? x')%Z then None else leadingInt x' s'
      else Some (x, s)
  | EmptyString => Some (x, s)
  end.

Definition atoi (s : string) : option Z :=
  let '(neg, s) :=
    match s with
    | String c s' =>
        if byte_eqb c "-" then (true, s')
        else if byte_eqb c "+" then (false, s')
        else (false, s)
    | EmptyString => (false, s)
    end in
  match leadingInt 0 s with
  | Some (q, EmptyString) => Some (if neg then (- q)%Z else q)
  | _ => None
  end.

(** [getnum]: a one- or two-digit number; two digits when [fixed]. *)
Definition getnum (s : string) (fixed : bool) : option (Z * string) :=
  if negb (isDigit s 0) then None
  else if negb (isDigit s 1) then
    if fixed then None
    else match s with
         | String c rest => Some (digit_val c, rest)
         | EmptyString => None
         end
  else match s with
       | String c0 (String c1 rest) =>
           Some ((digit_val c0 * 10 + digit_val c1)%Z, rest)
       | _ => None
       end.

Definition commaOrPeriod (c : ascii) : bool :=
  byte_eqb c "." || byte_eqb c ",".

Fixpoint digitRun (s : string) : nat :=
  match s with
  | String c s' => if is_digit c then S (digitRun s') else 0
  | EmptyString => 0
  end.

(** [parseNanoseconds(value, nbytes)] *)
Definition parseNanoseconds (value : string) (nbytes : nat) : option Z :=
  match value with
  | String c _ =>
      if negb (commaOrPeriod c) then None
      else
        let nbytes := if 10 <? nbytes then 10 else nbytes in
        match atoi (strings.slice_from (strings.slice_to value nbytes) 1) with
        | Some ns =>
            if (ns <? 0)%Z then None
            else Some (ns * 10 ^ Z.of_nat (10 - nbytes))%Z
        | None => None
        end
  | EmptyString => None
  end.

(** A fractional second in the input that the layout does not name. *)
Definition fractionalSecond (value : string) : option (Z * string) :=
  match value with
  | String c0 (String c1 rest) =>
      if commaOrPeriod c0 && is_digit c1 then
        let n := 2 + digitRun rest in
        ns ← parseNanoseconds value n;
        Some (ns, strings.slice_from value n)
      else Some (0%Z, value)
  | _ => Some (0%Z, value)
  end.

(** [time.Parse("20060102150405", value)]; [None] when it returns an
    error.  The layout is the chunks [stdLongYear], [stdZeroMonth],
    [stdZeroDay], [stdHour], [stdZeroMinute], [stdZeroSecond]. *)
Definition Parse_20060102150405 (value : string) : option Time :=
  if (String.length value <? 4) || negb (isDigit value 0) then None else
  year ← atoi (strings.slice_to value 4);
  let value := strings.slice_from value 4 in
  '(month, value) ← getnum value true;
  if ((month <=? 0) || (12 <? month))%Z then None else
  '(day, value) ← getnum value true;
  '(hour, value) ← getnum value false;
  if ((hour <? 0) || (24 <=? hour))%Z then None else
  '(min, value) ← getnum value true;
  if ((min <? 0) || (60 <=? min))%Z then None else
  '(sec, value) ← getnum value true;
  if ((sec <? 0) || (60 <=? sec))%Z then None else
  '(nsec, value) ← fractionalSecond value;
  if negb (String.length value =? 0) then None
  else if ((day <? 1) || (daysIn month year <? day))%Z then None
  else Some (Date year month day hour min sec nsec).

Fixpoint zeros (n : nat) : string :=
  match n with
  | O => EmptyString
  | S n' => String "0" (zeros n')
  end.

(** [appendInt]: the decimal form of [x], zero-padded to [width]. *)
Definition appendInt (x : Z) (width : nat) : string :=
  let digits := NilZero.string_of_uint (N.to_uint (Z.to_N (Z.abs x))) in
  (if (x <? 0)%Z then "-" else "") +:+
  zeros (width - String.length digits) +:+ digits.

(** [t.Format("2006-01")] *)
Definition Format_2006_01 (t : Time) : string :=
  appendInt (Year t) 4 +:+ "-" +:+ appendInt (Month t) 2.

(** [norm(hi, lo, base)]: [lo] brought into [0, base), the excess carried
    into [hi]. *)
Definition norm (hi lo base : Z) : Z * Z :=
  let '(hi, lo) :=
    if (lo <? 0)%Z then
      let n := ((- lo - 1) / base + 1)%Z in ((hi - n)%Z, (lo + n * base)%Z)
    else (hi, lo) in
  if (base <=? lo)%Z then
    let n := (lo / base)%Z in ((hi + n)%Z, (lo - n * base)%Z)
  else (hi, lo).

Definition absoluteZeroYear : Z := (-292277022399)%Z.

(** [daysSinceEpoch(year)]: the days from the absolute epoch to January 1
    of [year], by cycles of 400, 100, 4 and 1 years. *)
Definition daysSinceEpoch (year : Z) : Z :=
  let y := (year - absoluteZeroYear)%Z in
  let n := (y / 400)%Z in
  let y := (y - 400 * n)%Z in
  let d := (146097 * n)%Z in
  let n := (y / 100)%Z in
  let y := (y - 100 * n)%Z in
  let d := (d + 36524 * n)%Z in
  let n := (y / 4)%Z in
  let y := (y - 4 * n)%Z in
  let d := (d + 1461 * n)%Z in
  (d + 365 * y)%Z.

(** [daysBefore[m]]: the days of a non-leap year before month [m + 1]. *)
Definition daysBefore (m : Z) : Z :=
  nth (Z.to_nat m)
    [0; 31; 59; 90; 120; 151; 181; 212; 243; 273; 304; 334; 365]%Z 0%Z.

(** The instant of a time, as [time.Date] computes it from the civil
    fields: the seconds since the absolute epoch ([t.sec()] up to a
    constant) and the nanoseconds within the second ([t.nsec()]). *)
Definition abs (t : Time) : Z * Z :=
  let '(year, m) := norm (Year t) (Month t - 1) 12 in
  let month := (m + 1)%Z in
  let '(sec, nsec) := norm (Second t) (Nanosecond t) 1000000000 in
  let '(min, sec) := norm (Minute t) sec 60 in
  let '(hour, min) := norm (Hour t) min 60 in
  let '(day, hour) := norm (Day t) hour 24 in
  let d := daysSinceEpoch year in
  let d := (d + daysBefore (month - 1))%Z in
  let d := if isLeap year && (3 <=? month)%Z then (d + 1)%Z else d in
  let d := (d + (day - 1))%Z in
  ((d * 86400 + (hour * 3600 + min * 60 + sec))%Z, nsec).

(** [t.After(u)] and [t.Before(u)], without monotonic clock readings. *)
Definition After (t u : Time) : bool :=
  let '(ts, tn) := abs t in
  let '(us, un) := abs u in
  (us <? ts)%Z || ((ts =? us)%Z && (un <? tn)%Z).

Definition Before (t u : Time) : bool :=
  let '(ts, tn) := abs t in
  let '(us, un) := abs u in
  (ts <? us)%Z || ((ts =? us)%Z && (tn <? un)%Z).

End time.

(** ** Data model of [epp2json.go] *)

(** [InvoiceItem]: one invoice line.  The field [VatAmount] of the Go struct
    is [ItemVatAmount] here, [Invoice] having a field of the same name. *)
Record InvoiceItem : Type := mkInvoiceItem {
  VatRate : string;
  Quantity : float;
  NetPrice : float;
  ItemVatAmount : float;
  GrossPrice : float;
  NetTotal : float;
  VatTotal : float;
  GrossTotal : float }.

(** [Invoice]: one purchase or sale document.  The Go field [Type] is
    [Type_] here. *)
Record Invoice : Type := mkInvoice {
  Type_ : string;
  Number : string;
  InternalNumber : string;
  DocumentNumber : string;
  Date : time.Time;
  IssueDate : time.Time;
  SaleDate : time.Time;
  ContractorCode : string;
  ContractorName : string;
  ContractorFullName : string;
  City : string;
  PostalCode : string;
  Address : string;
  NIP : string;
  Category : string;
  NetAmount : float;
  VatAmount : float;
  GrossAmount : float;
  Currency : string;
  PaymentDate : time.Time;
  Registrar : string;
  Items : list InvoiceItem }.

(** [EPPData]; its Go field [Info] is [InfoMap] here. *)
Record EPPData : Type := mkEPPData {
  InfoMap : gmap string string;
  Invoices : list Invoice }.

Record ParseOptions : Type := mkParseOptions {
  IncludeFZ : bool;
  IncludeFS : bool }.

(** The Go struct [Section]. *)
Record Section_ : Type := mkSection {
  Header : string;
  Content : string }.

Record EPPSections : Type := mkEPPSections {
  Info : string;
  Sections : list Section_ }.

(** The zero values [InvoiceItem{}] and [Invoice{}]. *)
Definition InvoiceItem_zero : InvoiceItem :=
  mkInvoiceItem "" 0%float 0%float 0%float 0%float 0%float 0%float 0%float.

Definition Invoice_zero : Invoice :=
  mkInvoice "" "" "" "" time.zero time.zero time.zero "" "" "" "" "" "" "" ""
            0%float 0%float 0%float "" time.zero "" [].

(** Field assignment: [set_F v r] is [r] after [r.F = v].  The arguments
    of the constructors follow the order of the fields above. *)
Definition set_VatRate (v : string) (r : InvoiceItem) : InvoiceItem :=
  let '(mkInvoiceItem x0 x1 x2 x3 x4 x5 x6 x7) := r in
  mkInvoiceItem v x1 x2 x3 x4 x5 x6 x7.

Definition set_Quantity (v : float) (r : InvoiceItem) : InvoiceItem :=
  let '(mkInvoiceItem x0 x1 x2 x3 x4 x5 x6 x7) := r in
  mkInvoiceItem x0 v x2 x3 x4 x5 x6 x7.

Definition set_NetPrice (v : float) (r : InvoiceItem) : InvoiceItem :=
  let '(mkInvoiceItem x0 x1 x2 x3 x4 x5 x6 x7) := r in
  mkInvoiceItem x0 x1 v x3 x4 x5 x6 x7.

Definition set_ItemVatAmount (v : float) (r : InvoiceItem) : InvoiceItem :=
  let '(mkInvoiceItem x0 x1 x2 x3 x4 x5 x6 x7) := r in
  mkInvoiceItem x0 x1 x2 v x4 x5 x6 x7.

Definition set_GrossPrice (v : float) (r : InvoiceItem) : InvoiceItem :=
  let '(mkInvoiceItem x0 x1 x2 x3 x4 x5 x6 x7) := r in
  mkInvoiceItem x0 x1 x2 x3 v x5 x6 x7.

Definition set_NetTotal (v : float) (r : InvoiceItem) : InvoiceItem :=
  let '(mkInvoiceItem x0 x1 x2 x3 x4 x5 x6 x7) := r in
  mkInvoiceItem x0 x1 x2 x3 x4 v x6 x7.

Definition set_VatTotal (v : float) (r : InvoiceItem) : InvoiceItem :=
  let '(mkInvoiceItem x0 x1 x2 x3 x4 x5 x6 x7) := r in
  mkInvoiceItem x0 x1 x2 x3 x4 x5 v x7.

Definition set_GrossTotal (v : float) (r : InvoiceItem) : InvoiceItem :=
  let '(mkInvoiceItem x0 x1 x2 x3 x4 x5 x6 x7) := r in
  mkInvoiceItem x0 x1 x2 x3 x4 x5 x6 v.

Definition set_Type_ (v : string) (r : Invoice) : Invoice :=
  let '(mkInvoice x0 x1 x2 x3 x4 x5 x6 x7 x8 x9 x10 x11 x12 x13 x14 x15 x16 x17 x18 x19 x20 x21) := r in
  mkInvoice v x1 x2 x3 x4 x5 x6 x7 x8 x9 x10 x11 x12 x13 x14 x15 x16 x17 x18 x19 x20 x21.

Definition set_Number (v : string) (r : Invoice) : Invoice :=
  let '(mkInvoice x0 x1 x2 x3 x4 x5 x6 x7 x8 x9 x10 x11 x12 x13 x14 x15 x16 x17 x18 x19 x20 x21) := r in
  mkInvoice x0 v x2 x3 x4 x5 x6 x7 x8 x9 x10 x11 x12 x13 x14 x15 x16 x17 x18 x19 x20 x21.

Definition set_InternalNumber (v : string) (r : Invoice) : Invoice :=
  let '(mkInvoice x0 x1 x2 x3 x4 x5 x6 x7 x8 x9 x10 x11 x12 x13 x14 x15 x16 x17 x18 x19 x20 x21) := r in
  mkInvoice x0 x1 v x3 x4 x5 x6 x7 x8 x9 x10 x11 x12 x13 x14 x15 x16 x17 x18 x19 x20 x21.

Definition set_Date (v : time.Time) (r : Invoice) : Invoice :=
  let '(mkInvoice x0 x1 x2 x3 x4 x5 x6 x7 x8 x9 x10 x11 x12 x13 x14 x15 x16 x17 x18 x19 x20 x21) := r in
  mkInvoice x0 x1 x2 x3 v x5 x6 x7 x8 x9 x10 x11 x12 x13 x14 x15 x16 x17 x18 x19 x20 x21.

Definition set_IssueDate (v : time.Time) (r : Invoice) : Invoice :=
  let '(mkInvoice x0 x1 x2 x3 x4 x5 x6 x7 x8 x9 x10 x11 x12 x13 x14 x15 x16 x17 x18 x19 x20 x21) := r in
  mkInvoice x0 x1 x2 x3 x4 v x6 x7 x8 x9 x10 x11 x12 x13 x14 x15 x16 x17 x18 x19 x20 x21.

Definition set_SaleDate (v : time.Time) (r : Invoice) : Invoice :=
  let '(mkInvoice x0 x1 x2 x3 x4 x5 x6 x7 x8 x9 x10 x11 x12 x13 x14 x15 x16 x17 x18 x19 x20 x21) := r in
  mkInvoice x0 x1 x2 x3 x4 x5 v x7 x8 x9 x10 x11 x12 x13 x14 x15 x16 x17 x18 x19 x20 x21.

Definition set_ContractorCode (v : string) (r : Invoice) : Invoice :=
  let '(mkInvoice x0 x1 x2 x3 x4 x5 x6 x7 x8 x9 x10 x11 x12 x13 x14 x15 x16 x17 x18 x19 x20 x21) := r in
  mkInvoice x0 x1 x2 x3 x4 x5 x6 v x8 x9 x10 x11 x12 x13 x14 x15 x16 x17 x18 x19 x20 x21.

Definition set_ContractorName (v : string) (r : Invoice) : Invoice :=
  let '(mkInvoice x0 x1 x2 x3 x4 x5 x6 x7 x8 x9 x10 x11 x12 x13 x14 x15 x16 x17 x18 x19 x20 x21) := r in
  mkInvoice x0 x1 x2 x3 x4 x5 x6 x7 v x9 x10 x11 x12 x13 x14 x15 x16 x17 x18 x19 x20 x21.

Definition set_ContractorFullName (v : string) (r : Invoice) : Invoice :=
  let '(mkInvoice x0 x1 x2 x3 x4 x5 x6 x7 x8 x9 x10 x11 x12 x13 x14 x15 x16 x17 x18 x19 x20 x21) := r in
  mkInvoice x0 x1 x2 x3 x4 x5 x6 x7 x8 v x10 x11 x12 x13 x14 x15 x16 x17 x18 x19 x20 x21.

Definition set_City (v : string) (r : Invoice) : Invoice :=
  let '(mkInvoice x0 x1 x2 x3 x4 x5 x6 x7 x8 x9 x10 x11 x12 x13 x14 x15 x16 x17 x18 x19 x20 x21) := r in
  mkInvoice x0 x1 x2 x3 x4 x5 x6 x7 x8 x9 v x11 x12 x13 x14 x15 x16 x17 x18 x19 x20 x21.

Definition set_PostalCode (v : string) (r : Invoice) : Invoice :=
  let '(mkInvoice x0 x1 x2 x3 x4 x5 x6 x7 x8 x9 x10 x11 x12 x13 x14 x15 x16 x17 x18 x19 x20 x21) := r in
  mkInvoice x0 x1 x2 x3 x4 x5 x6 x7 x8 x9 x10 v x12 x13 x14 x15 x16 x17 x18 x19 x20 x21.

Definition set_Address (v : string) (r : Invoice) : Invoice :=
  let '(mkInvoice x0 x1 x2 x3 x4 x5 x6 x7 x8 x9 x10 x11 x12 x13 x14 x15 x16 x17 x18 x19 x20 x21) := r in
  mkInvoice x0 x1 x2 x3 x4 x5 x6 x7 x8 x9 x10 x11 v x13 x14 x15 x16 x17 x18 x19 x20 x21.

Definition set_NIP (v : string) (r : Invoice) : Invoice :=
  let '(mkInvoice x0 x1 x2 x3 x4 x5 x6 x7 x8 x9 x10 x11 x12 x13 x14 x15 x16 x17 x18 x19 x20 x21) := r in
  mkInvoice x0 x1 x2 x3 x4 x5 x6 x7 x8 x9 x10 x11 x12 v x14 x15 x16 x17 x18 x19 x20 x21.

Definition set_Category (v : string) (r : Invoice) : Invoice :=
  let '(mkInvoice x0 x1 x2 x3 x4 x5 x6 x7 x8 x9 x10 x11 x12 x13 x14 x15 x16 x17 x18 x19 x20 x21) := r in
  mkInvoice x0 x1 x2 x3 x4 x5 x6 x7 x8 x9 x10 x11 x12 x13 v x15 x16 x17 x18 x19 x20 x21.

Definition set_NetAmount (v : float) (r : Invoice) : Invoice :=
  let '(mkInvoice x0 x1 x2 x3 x4 x5 x6 x7 x8 x9 x10 x11 x12 x13 x14 x15 x16 x17 x18 x19 x20 x21) := r in
  mkInvoice x0 x1 x2 x3 x4 x5 x6 x7 x8 x9 x10 x11 x12 x13 x14 v x16 x17 x18 x19 x20 x21.

Definition set_VatAmount (v : float) (r : Invoice) : Invoice :=
  let '(mkInvoice x0 x1 x2 x3 x4 x5 x6 x7 x8 x9 x10 x11 x12 x13 x14 x15 x16 x17 x18 x19 x20 x21) := r in
  mkInvoice x0 x1 x2 x3 x4 x5 x6 x7 x8 x9 x10 x11 x12 x13 x14 x15 v x17 x18 x19 x20 x21.

Definition set_GrossAmount (v : float) (r : Invoice) : Invoice :=
  let '(mkInvoice x0 x1 x2 x3 x4 x5 x6 x7 x8 x9 x10 x11 x12 x13 x14 x15 x16 x17 x18 x19 x20 x21) := r in
  mkInvoice x0 x1 x2 x3 x4 x5 x6 x7 x8 x9 x10 x11 x12 x13 x14 x15 x16 v x18 x19 x20 x21.

Definition set_Currency (v : string) (r : Invoice) : Invoice :=
  let '(mkInvoice x0 x1 x2 x3 x4 x5 x6 x7 x8 x9 x10 x11 x12 x13 x14 x15 x16 x17 x18 x19 x20 x21) := r in
  mkInvoice x0 x1 x2 x3 x4 x5 x6 x7 x8 x9 x10 x11 x12 x13 x14 x15 x16 x17 v x19 x20 x21.

Definition set_PaymentDate (v : time.Time) (r : Invoice) : Invoice :=
  let '(mkInvoice x0 x1 x2 x3 x4 x5 x6 x7 x8 x9 x10 x11 x12 x13 x14 x15 x16 x17 x18 x19 x20 x21) := r in
  mkInvoice x0 x1 x2 x3 x4 x5 x6 x7 x8 x9 x10 x11 x12 x13 x14 x15 x16 x17 x18 v x20 x21.

Definition set_Registrar (v : string) (r : Invoice) : Invoice :=
  let '(mkInvoice x0 x1 x2 x3 x4 x5 x6 x7 x8 x9 x10 x11 x12 x13 x14 x15 x16 x17 x18 x19 x20 x21) := r in
  mkInvoice x0 x1 x2 x3 x4 x5 x6 x7 x8 x9 x10 x11 x12 x13 x14 x15 x16 x17 x18 x19 v x21.

Definition set_Items (v : list InvoiceItem) (r : Invoice) : Invoice :=
  let '(mkInvoice x0 x1 x2 x3 x4 x5 x6 x7 x8 x9 x10 x11 x12 x13 x14 x15 x16 x17 x18 x19 x20 x21) := r in
  mkInvoice x0 x1 x2 x3 x4 x5 x6 x7 x8 x9 x10 x11 x12 x13 x14 x15 x16 x17 x18 x19 x20 v.

Definition DefaultParseOptions : ParseOptions :=
  {| IncludeFZ := true; IncludeFS := true |}.

(** ** Functions of [epp2json.go] *)

Definition ParseDate (dateStr : string) : time.Time :=
  if String.length dateStr =? 14 then
    match time.Parse_20060102150405 dateStr with
    | Some t => t
    | None => time.zero
    end
  else time.zero.

Definition headerTag : string := "[NAGLOWEK]".
Definition contentTag : string := "[ZAWARTOSC]".
Definition infoTag : string := "[INFO]".

(** The body of the loop over [blocks[1:]]. *)
Definition appendSection (sections : list Section_) (block : string)
    : list Section_ :=
  match strings.Index block contentTag with
  | None => sections
  | Some idx =>
      let header := strings.TrimSpace (strings.slice_to block idx) in
      let content :=
        strings.TrimSpace
          (strings.slice_from block (idx + String.length contentTag)) in
      sections ++ [{| Header := header; Content := content |}]
  end.

(** [strings.Split] never returns an empty slice, so [blocks[1:]] is in
    range; it is [tail blocks]. *)
Definition ParseSections (input : string) : EPPSections :=
  let blocks := strings.Split input headerTag in
  let info :=
    match blocks with
    | prefix :: _ =>
        match strings.Index prefix infoTag with
        | Some idx =>
            strings.TrimSpace
              (strings.slice_from prefix (idx + String.length infoTag))
        | None => ""
        end
    | [] => ""
    end in
  let sections := foldl appendSection [] (tail blocks) in
  {| Info := info; Sections := sections |}.

Definition ParseCSVLine (line : string) : outcome (list string) :=
  match csv.Read line with
  | inr result => Returned result
  | inl err => Failed (CSVReadError err)
  end.

(** [fmt.Errorf("błąd podczas parsowania ...: %v", err)] around a call. *)
Definition wrapError {A} (p : phase) (m : outcome A) : outcome A :=
  match m with
  | Failed e => Failed (PhaseError p e)
  | _ => m
  end.

(** The inclusion test of [ParseEPPFromString]; as in Go, [&&] binds
    tighter than [||]. *)
Definition shouldInclude (options : ParseOptions) (invoiceType : string) : bool :=
  (String.eqb invoiceType "FZ"
   || String.eqb invoiceType "KFZ" && IncludeFZ options)
  || (String.eqb invoiceType "FS"
      || String.eqb invoiceType "KFS" && IncludeFS options).

(** [GroupInvoicesByMonth]: reading a missing key of the map gives the nil
    slice. *)
Definition GroupInvoicesByMonth (invoices : list Invoice)
    : gmap string (list Invoice) :=
  foldl (λ grouped invoice,
           if negb (time.IsZero (IssueDate invoice)) then
             let month := time.Format_2006_01 (IssueDate invoice) in
             <[month := default [] (grouped !! month) ++ [invoice]]> grouped
           else grouped)
        ∅ invoices.

(** The loop variables of [ParseEPPFromString]: [currentInvoice] and
    [eppData.Invoices]. *)
Record loopState : Type := mkLoopState {
  currentInvoice : Invoice;
  invoicesSoFar : list Invoice }.

(** Go's [int] on a 64-bit platform: [z] wrapped into the signed 64-bit
    range. *)
Definition wrapInt (z : Z) : Z := ((z + 2 ^ 63) mod 2 ^ 64 - 2 ^ 63)%Z.

Definition GetInvoiceStats (eppData : EPPData) : Z * Z :=
  foldl (λ '(fzCount, fsCount) invoice,
           if String.eqb (Type_ invoice) "FZ"
           then (wrapInt (fzCount + 1), fsCount)
           else if String.eqb (Type_ invoice) "FS"
           then (fzCount, wrapInt (fsCount + 1))
           else (fzCount, fsCount))
        (0%Z, 0%Z) (Invoices eppData).

Definition FilterInvoices (invoices : list Invoice) (invoiceType : string)
    : list Invoice :=
  foldl (λ filtered invoice,
           if String.eqb (Type_ invoice) invoiceType
           then filtered ++ [invoice] else filtered)
        [] invoices.

Definition GetInvoicesByContractor (invoices : list Invoice)
    (contractorCode : string) : list Invoice :=
  foldl (λ filtered invoice,
           if strings.Contains (ContractorCode invoice) contractorCode
           then filtered ++ [invoice] else filtered)
        [] invoices.

Definition GetInvoicesByDateRange (invoices : list Invoice)
    (start end_ : time.Time) : list Invoice :=
  foldl (λ filtered invoice,
           if negb (time.IsZero (IssueDate invoice)) &&
              time.After (IssueDate invoice) start &&
              time.Before (IssueDate invoice) end_
           then filtered ++ [invoice] else filtered)
        [] invoices.

(** [CalculateTotalAmount]: the three running sums, in binary64. *)
Definition CalculateTotalAmount (invoices : list Invoice)
    : float * float * float :=
  foldl (λ '(net, vat, gross) invoice,
           ((net + NetAmount invoice)%float,
            (vat + VatAmount invoice)%float,
            (gross + GrossAmount invoice)%float))
        (0%float, 0%float, 0%float) invoices.

(** The parse options [main] (cmd/epp2json/main.go) builds from the
    switches [-fz-only] and [-fs-only]. *)
Definition cliOptions (onlyFZ onlyFS : bool) : ParseOptions :=
  let options := DefaultParseOptions in
  let options :=
    if onlyFZ
    then {| IncludeFZ := IncludeFZ options; IncludeFS := false |}
    else options in
  let options :=
    if onlyFS
    then {| IncludeFZ := false; IncludeFS := IncludeFS options |}
    else options in
  options.

(** ** Reference notions the properties are stated with *)

(** [sep] occurs in [s]. *)
Definition occurs (sep s : string) : Prop :=
  ∃ before after, s = before +:+ sep +:+ after.

(** [before] and [after] are what surrounds the first occurrence of [sep]
    in [s]. *)
Definition firstSplit (sep s before after : string) : Prop :=
  s = before +:+ sep +:+ after ∧
  ∀ before' after', s = before' +:+ sep +:+ after' →
    String.length before ≤ String.length before'.

(** What a block following a header marker contributes: nothing without a
    content marker, else the trimmed texts around the first one. *)
Definition blockContributes (block : string) (c : option Section_) : Prop :=
  (¬ occurs contentTag block ∧ c = None) ∨
  (∃ before after,
     firstSplit contentTag block before after ∧
     c = Some {| Header := strings.TrimSpace before;
                 Content := strings.TrimSpace after |}).

(** The info string of a preamble: the trimmed text after the first info
    marker, or the empty string without one. *)
Definition preambleInfo (preamble info : string) : Prop :=
  (¬ occurs infoTag preamble ∧ info = "") ∨
  (∃ before after,
     firstSplit infoTag preamble before after ∧
     info = strings.TrimSpace after).

(** A timestamp in the words of the specification: fourteen decimal digits
    YYYYMMDDHHMMSS that name a day of the calendar and a time of that day. *)
Definition number (digits : list ascii) : Z :=
  foldl (λ n c, n * 10 + digit_val c)%Z 0%Z digits.

Definition leapYear (year : Z) : bool :=
  if (year mod 400 =? 0)%Z then true
  else if (year mod 100 =? 0)%Z then false
  else (year mod 4 =? 0)%Z.

Definition daysOfMonth (year month : Z) : Z :=
  if ((month =? 1) || (month =? 3) || (month =? 5) || (month =? 7) ||
      (month =? 8) || (month =? 10) || (month =? 12))%Z then 31%Z
  else if ((month =? 4) || (month =? 6) || (month =? 9) || (month =? 11))%Z
  then 30%Z
  else if leapYear year then 29%Z else 28%Z.

Definition validTimestamp (s : string) : option time.Time :=
  match String.list_ascii_of_string s with
  | [y1; y2; y3; y4; m1; m2; d1; d2; h1; h2; n1; n2; s1; s2] =>
      if forallb is_digit [y1; y2; y3; y4; m1; m2; d1; d2; h1; h2; n1; n2; s1; s2]
      then
        let year := number [y1; y2; y3; y4] in
        let month := number [m1; m2] in
        let day := number [d1; d2] in
        let hour := number [h1; h2] in
        let minute := number [n1; n2] in
        let second := number [s1; s2] in
        if ((1 <=? month) && (month <=? 12) &&
            (1 <=? day) && (day <=? daysOfMonth year month) &&
            (hour <=? 23) && (minute <=? 59) && (second <=? 59))%Z
        then Some (time.mkTime year month day hour minute second 0)
        else None
      else None
  | _ => None
  end.

(** The invoices of [invoices] that belong to the bucket [month]: those
    with an issue date, rendered as [month]. *)
Definition monthBucket (month : string) (invoices : list Invoice)
    : list Invoice :=
  List.filter
    (λ invoice,
       negb (time.IsZero (IssueDate invoice)) &&
       String.eqb (time.Format_2006_01 (IssueDate invoice)) month)
    invoices.

(** A section passes the type filter: its trimmed header is not empty and
    tokenizes to a sequence whose first field is an included type. *)
Definition passesFilter (options : ParseOptions) (section : Section_) : bool :=
  let line := strings.TrimSpace (Header section) in
  if String.eqb line "" then false
  else match ParseCSVLine line with
       | Returned (invoiceType :: _) => shouldInclude options invoiceType
       | _ => false
       end.

(** ** Inputs for running the functions *)

(** A stand-in for [strconv.ParseFloat] on which the functions can be
    run: it reads an unsigned decimal literal of at most fifteen digits
    with an optional fraction. *)
Fixpoint readDigits (s : string) (acc : Z) (n : nat) : Z * nat * string :=
  match s with
  | String c s' =>
      if is_digit c then readDigits s' (acc * 10 + digit_val c)%Z (S n)
      else (acc, n, s)
  | EmptyString => (acc, n, s)
  end.

Definition decimalLiteral (s : string) : option float :=
  let '(whole, n1, rest) := readDigits s 0%Z 0 in
  let '(mant, n2, rest) :=
    match rest with
    | String c r => if byte_eqb c "." then readDigits r whole 0 else (whole, 0, rest)
    | EmptyString => (whole, 0, rest)
    end in
  if (0 <? n1) && csv.isEmpty rest && (n1 + n2 <=? 15) then
    Some (PrimFloat.div (PrimFloat.of_uint63 (Uint63.of_Z mant))
                        (PrimFloat.of_uint63 (Uint63.of_Z (10 ^ Z.of_nat n2))))
  else None.

(** A field between double quotes. *)
Definition quoted (s : string) : string :=
  String quote s +:+ String quote EmptyString.

Definition newline : string := String LF EmptyString.

(** A document with an info line, a purchase invoice whose content holds
    two item rows, and a sale credit note whose content holds two items on
    one row. *)
Definition sampleDocument : string :=
  "[INFO]" +:+ newline +:+
  quoted "1.05" +:+ ",3,1250," +:+ quoted "Subiekt GT" +:+ "," +:+
  quoted "FIRMA" +:+ "," +:+ quoted "Firma, sp. z o.o." +:+ newline +:+
  newline +:+
  "[NAGLOWEK]" +:+ newline +:+
  quoted "FZ" +:+ ",1,0,1," +:+ quoted "FZ 1/2023" +:+ ",,1/2023,,,,," +:+
  quoted "K1" +:+ ",Kontr," +:+ quoted "Kontrahent, sp. z o.o." +:+
  ",Miasto,00-001,Ulica 1,1234567890,Zakup,Towary,," +:+
  "20230615000000,20230616000000,20230617000000,,,," +:+
  "100.00,23.00,123.00,,,,,20230701000000,,,,,,,Jan,,,,,PLN" +:+ newline +:+
  newline +:+
  "[ZAWARTOSC]" +:+ newline +:+
  quoted "23" +:+ ",1,100.00,23.00,123.00,100.00,23.00,123.00" +:+ newline +:+
  quoted "8" +:+ ",2,50.00,4.00,54.00,100.00,8.00,108.00" +:+ newline +:+
  newline +:+
  "[NAGLOWEK]" +:+ newline +:+
  "KFS,1,0,2,KFS 2/2023" +:+ newline +:+
  "[ZAWARTOSC]" +:+ newline +:+
  "23,1,10.00,2.30,12.30,10.00,2.30,12.30,8,1,5.00,0.40,5.40,5.00,0.40,5.40" +:+
  newline.

(** A header line of exactly nineteen fields, and the fields it
    tokenizes to. *)
Definition nineteenHeader : string :=
  "FZ,1,0,1,FZ 1/2023,,1/2023,,,,,K1,Kontr,Kontrahent,Miasto,00-001,Ulica 1,1234567890,Zakup".

Definition nineteenFields : list string :=
  ["FZ"; "1"; "0"; "1"; "FZ 1/2023"; ""; "1/2023"; ""; ""; ""; ""; "K1";
   "Kontr"; "Kontrahent"; "Miasto"; "00-001"; "Ulica 1"; "1234567890"; "Zakup"].

(** A header line of twenty fields. *)
Definition twentyFields : list string := nineteenFields ++ ["Towary"].

(** A section with that header and one item row. *)
Definition nineteenSection : Section_ :=
  {| Header := nineteenHeader;
     Content := "23,1,100.00,23.00,123.00,100.00,23.00,123.00" |}.

(** A document whose only section is that one. *)
Definition nineteenItemDocument : string :=
  "[INFO]1.05,3[NAGLOWEK]" +:+ Header nineteenSection +:+
  "[ZAWARTOSC]" +:+ Content nineteenSection.

(** A document whose only section has that header and no content. *)
Definition nineteenDocument : string :=
  "[INFO]1.05,3[NAGLOWEK]" +:+ nineteenHeader +:+ "[ZAWARTOSC]".

(** Invoices issued in June 2023, in July 2023, and without issue date. *)
Definition issuedOn (number : string) (t : time.Time) : Invoice :=
  mkInvoice "FS" number "" "" time.zero t time.zero "" "" "" "" "" "" "" ""
            0%float 0%float 0%float "" time.zero "" [].

Definition sampleInvoices : list Invoice :=
  [issuedOn "1" (time.mkTime 2023 6 15 0 0 0 0);
   issuedOn "2" time.zero;
   issuedOn "3" (time.mkTime 2023 7 1 12 0 0 0);
   issuedOn "4" (time.mkTime 2023 6 30 23 59 59 0)].

(** A section the loop gets through: its trimmed header is empty, or
    tokenizes and, when the section passes the type filter, has a header
    of other than nineteen fields and a content that tokenizes. *)
Definition sectionReady (options : ParseOptions) (section : Section_) : Prop :=
  strings.TrimSpace (Header section) = "" ∨
  ∃ fields,
    ParseCSVLine (strings.TrimSpace (Header section)) = Returned fields ∧
    (passesFilter options section = true →
     length fields ≠ 19 ∧
     ∃ contentFields, ParseCSVLine (Content section) = Returned contentFields).


(** A text without opening bracket: no marker starts in it. *)
Fixpoint noBracket (s : string) : bool :=
  match s with
  | EmptyString => true
  | String c s' => negb (byte_eqb c "[") && noBracket s'
  end.

(** The text of a document: the info marker and the info line, then for
    every section the header marker, the header, the content marker and the
    content. *)
Definition renderSection (section : Section_) : string :=
  Header section +:+ contentTag +:+ Content section.

Fixpoint renderSections (sections : list Section_) : string :=
  match sections with
  | [] => ""
  | section :: rest =>
      headerTag +:+ renderSection section +:+ renderSections rest
  end.

Definition renderDocument (info : string) (sections : list Section_)
    : string :=
  infoTag +:+ info +:+ renderSections sections.

(** A section with its header and its content trimmed. *)
Definition trimSection (section : Section_) : Section_ :=
  {| Header := strings.TrimSpace (Header section);
     Content := strings.TrimSpace (Content section) |}.

(** The byte of a decimal digit. *)
Definition digitChar (d : nat) : ascii := ascii_of_nat (48 + d).

(** A field the tokenizer takes as it stands: it holds no comma, no quote,
    no carriage return and no line feed. *)
Definition plainByte (c : ascii) : bool :=
  negb (byte_eqb c comma || byte_eqb c quote || byte_eqb c CR || byte_eqb c LF).

Fixpoint plainField (s : string) : bool :=
  match s with
  | EmptyString => true
  | String c s' => plainByte c && plainField s'
  end.

(** A row of plain fields that can stand in a document as it is: the
    fields joined by commas give a text that is not empty, holds no
    opening bracket and has nothing to trim. *)
Definition plainRow (fields : list string) : Prop :=
  Forall (λ field, plainField field = true) fields ∧
  strings.Join fields "," ≠ "" ∧
  noBracket (strings.Join fields ",") = true ∧
  strings.TrimSpace (strings.Join fields ",") = strings.Join fields ",".

(** The section of a header row and an item row. *)
Definition sectionOf (row : list string * list string) : Section_ :=
  {| Header := strings.Join row.1 ","; Content := strings.Join row.2 "," |}.
Section Parsing.

(** [strconv.ParseFloat(str, 64)]: [Some val] when it returns no error. *)
Variable strconv_ParseFloat : string → option float.

Definition ParseFloat (str : string) : float :=
  match strconv_ParseFloat str with
  | Some val => val
  | None => 0%float
  end.

(** [if len(fields) > i { invoice.F = conv(fields[j]) }] *)
Definition assignIf {R A} (fields : list string) (i j : nat)
    (set : A → R → R) (conv : string → A) (r : R) : outcome R :=
  if i <? length fields then
    v ← index fields j; mret (set (conv v) r)
  else mret r.

Definition ParseHeader (fields : list string) : outcome Invoice :=
  let invoice := Invoice_zero in
  invoice ← assignIf fields 0 0 set_Type_ id invoice;
  invoice ← assignIf fields 4 4 set_Number id invoice;
  invoice ← assignIf fields 6 6 set_InternalNumber id invoice;
  invoice ← assignIf fields 11 11 set_ContractorCode id invoice;
  invoice ← assignIf fields 12 12 set_ContractorName id invoice;
  invoice ← assignIf fields 13 13 set_ContractorFullName id invoice;
  invoice ← assignIf fields 14 14 set_City id invoice;
  invoice ← assignIf fields 15 15 set_PostalCode id invoice;
  invoice ← assignIf fields 16 16 set_Address id invoice;
  invoice ← assignIf fields 17 17 set_NIP id invoice;
  invoice ← assignIf fields 18 19 set_Category id invoice;
  invoice ← assignIf fields 21 21 set_Date ParseDate invoice;
  invoice ← assignIf fields 22 22 set_IssueDate ParseDate invoice;
  invoice ← assignIf fields 23 23 set_SaleDate ParseDate invoice;
  invoice ← assignIf fields 27 27 set_NetAmount ParseFloat invoice;
  invoice ← assignIf fields 28 28 set_VatAmount ParseFloat invoice;
  invoice ← assignIf fields 29 29 set_GrossAmount ParseFloat invoice;
  invoice ← assignIf fields 34 34 set_PaymentDate ParseDate invoice;
  invoice ← assignIf fields 41 41 set_Registrar id invoice;
  invoice ← assignIf fields 46 46 set_Currency id invoice;
  mret invoice.

Definition ParseItem (fields : list string) : outcome InvoiceItem :=
  let item := InvoiceItem_zero in
  item ← assignIf fields 0 0 set_VatRate id item;
  item ← assignIf fields 1 1 set_Quantity ParseFloat item;
  item ← assignIf fields 2 2 set_NetPrice ParseFloat item;
  item ← assignIf fields 3 3 set_ItemVatAmount ParseFloat item;
  item ← assignIf fields 4 4 set_GrossPrice ParseFloat item;
  item ← assignIf fields 5 5 set_NetTotal ParseFloat item;
  item ← assignIf fields 6 6 set_VatTotal ParseFloat item;
  item ← assignIf fields 7 7 set_GrossTotal ParseFloat item;
  mret item.

(** The index table of the header mapper, as the specification words it
    (section 4.6): every attribute is read from its own zero-based index
    when the sequence contains that index, and is the zero value
    otherwise.  It is the reference [ParseHeader] is compared with. *)
Definition stringAt (fields : list string) (i : nat) : string :=
  default "" (fields !! i).

Definition dateAt (fields : list string) (i : nat) : time.Time :=
  default time.zero (ParseDate <$> fields !! i).

Definition floatAt (fields : list string) (i : nat) : float :=
  default 0%float (ParseFloat <$> fields !! i).

Definition headerTable (fields : list string) : Invoice :=
  {| Type_ := stringAt fields 0;
     Number := stringAt fields 4;
     InternalNumber := stringAt fields 6;
     DocumentNumber := "";
     Date := dateAt fields 21;
     IssueDate := dateAt fields 22;
     SaleDate := dateAt fields 23;
     ContractorCode := stringAt fields 11;
     ContractorName := stringAt fields 12;
     ContractorFullName := stringAt fields 13;
     City := stringAt fields 14;
     PostalCode := stringAt fields 15;
     Address := stringAt fields 16;
     NIP := stringAt fields 17;
     Category := stringAt fields 19;
     NetAmount := floatAt fields 27;
     VatAmount := floatAt fields 28;
     GrossAmount := floatAt fields 29;
     Currency := stringAt fields 46;
     PaymentDate := dateAt fields 34;
     Registrar := stringAt fields 41;
     Items := [] |}.

(** The same for the item mapper (section 4.7). *)
Definition itemTable (fields : list string) : InvoiceItem :=
  {| VatRate := stringAt fields 0;
     Quantity := floatAt fields 1;
     NetPrice := floatAt fields 2;
     ItemVatAmount := floatAt fields 3;
     GrossPrice := floatAt fields 4;
     NetTotal := floatAt fields 5;
     VatTotal := floatAt fields 6;
     GrossTotal := floatAt fields 7 |}.

(** The info map: [eppData.Info["version"] = fields[0]] and so on. *)
Definition parseInfo (fields : list string) : outcome (gmap string string) :=
  let info : gmap string string := ∅ in
  if 2 <=? length fields then
    v ← index fields 0;
    let info := <["version" := v]> info in
    info ← (if 3 <? length fields
            then v ← index fields 3; mret (<["system" := v]> info)
            else mret info);
    info ← (if 5 <? length fields
            then v ← index fields 5; mret (<["company" := v]> info)
            else mret info);
    mret info
  else mret info.

(** The body of the loop over [sections.Sections]. *)
Definition processSection (options : ParseOptions) (st : loopState)
    (section : Section_) : outcome loopState :=
  let line := strings.TrimSpace (Header section) in
  if String.eqb line "" then mret st
  else
    fields ← wrapError HeaderPhase (ParseCSVLine line);
    if 0 <? length fields then
      invoiceType ← index fields 0;
      if shouldInclude options invoiceType then
        let invoices :=
          if negb (String.eqb (Type_ (currentInvoice st)) "")
          then invoicesSoFar st ++ [currentInvoice st]
          else invoicesSoFar st in
        currentInvoice ← ParseHeader fields;
        let currentInvoice := set_Items [] currentInvoice in
        fields ← wrapError ItemPhase (ParseCSVLine (Content section));
        currentInvoice ←
          (if negb (String.eqb (Type_ currentInvoice) "") then
             item ← ParseItem fields;
             mret (set_Items (Items currentInvoice ++ [item]) currentInvoice)
           else mret currentInvoice);
        mret (mkLoopState currentInvoice invoices)
      else mret st
    else mret st.

Fixpoint sectionLoop (options : ParseOptions) (sections : list Section_)
    (st : loopState) : outcome loopState :=
  match sections with
  | [] => mret st
  | section :: rest =>
      st ← processSection options st section;
      sectionLoop options rest st
  end.

Definition ParseEPPFromString (content : string) (options : ParseOptions)
    : outcome EPPData :=
  let sections := ParseSections content in
  let info := Info sections in
  fields ← wrapError InfoPhase (ParseCSVLine info);
  infoMap ← parseInfo fields;
  st ← sectionLoop options (Sections sections) (mkLoopState Invoice_zero []);
  let invoices :=
    if negb (String.eqb (Type_ (currentInvoice st)) "")
    then invoicesSoFar st ++ [currentInvoice st]
    else invoicesSoFar st in
  mret (mkEPPData infoMap invoices).

(** The invoice a section contributes to the document: the header mapped
    from its tokenized header line, holding the one item mapped from its
    tokenized content. *)
Definition contributes (section : Section_) (invoice : Invoice) : Prop :=
  ∃ headerFields header contentFields item,
    ParseCSVLine (strings.TrimSpace (Header section)) = Returned headerFields ∧
    ParseHeader headerFields = Returned header ∧
    ParseCSVLine (Content section) = Returned contentFields ∧
    ParseItem contentFields = Returned item ∧
    invoice = set_Items [item] header.

(** The invoices the loop has settled on so far: [eppData.Invoices],
    followed by the pending invoice when there is one. *)
Definition settled (st : loopState) : list Invoice :=
  if negb (String.eqb (Type_ (currentInvoice st)) "")
  then invoicesSoFar st ++ [currentInvoice st]
  else invoicesSoFar st.

End Parsing.

(** The sample document parsed with the default options. *)
Definition sampleData : EPPData :=
  match ParseEPPFromString decimalLiteral sampleDocument DefaultParseOptions with
  | Returned doc => doc
  | _ => mkEPPData ∅ []
  end.

Definition sampleFinal : Section_ :=
  default (mkSection "" "") (last (Sections (ParseSections sampleDocument))).

(** The invoice a section starts: the header table of its header line,
    holding the item table of the first record of its content. *)
Definition built (strconv_ParseFloat : string → option float)
    (section : Section_) (invoice : Invoice) : Prop :=
  ∃ fields contentFields,
    ParseCSVLine (strings.TrimSpace (Header section)) = Returned fields ∧
    length fields ≠ 19 ∧
    ParseCSVLine (Content section) = Returned contentFields ∧
    invoice = set_Items [itemTable strconv_ParseFloat contentFields]
                (headerTable strconv_ParseFloat fields).


(** A text without info marker, a text without section, and the rows of a
    small document. *)
Definition headlessDocument : string := "[NAGLOWEK]FZ,1[ZAWARTOSC]23,1".

Definition infoOnlyDocument : string := "[INFO]1.05,3".

Definition sampleInfoRow : list string := ["1.05"; "3"; "1250"; "Subiekt GT"].

Definition sampleRows : list (list string * list string) :=
  [(["FZ"; "1"; "0"; "1"; "FZ 1/2023"], ["23"; "1"; "100.00"]);
   (["KFS"; "1"; "0"; "2"; "KFS 2/2023"], ["8"; "2"; "50.00"]);
   (["WZ"; "1"], ["0"])].

Definition sampleSections : list Section_ :=
  [{| Header := " FZ,1,0,1 "; Content := "23,1,100.00" |};
   {| Header := "KFS,1"; Content := "" |}].
Section Properties.

Variable strconv_ParseFloat : string → option float.

#[local] Arguments ParseHeader : simpl never.
#[local] Arguments ParseItem : simpl never.
#[local] Arguments ParseCSVLine : simpl never.
#[local] Arguments shouldInclude : simpl never.
#[local] Arguments strings.TrimSpace : simpl never.

#[local] Abbreviation ParseFloat := (ParseFloat strconv_ParseFloat).
#[local] Abbreviation ParseHeader := (ParseHeader strconv_ParseFloat).
#[local] Abbreviation ParseItem := (ParseItem strconv_ParseFloat).
#[local] Abbreviation headerTable := (headerTable strconv_ParseFloat).
#[local] Abbreviation itemTable := (itemTable strconv_ParseFloat).
#[local] Abbreviation processSection := (processSection strconv_ParseFloat).
#[local] Abbreviation sectionLoop := (sectionLoop strconv_ParseFloat).
#[local] Abbreviation ParseEPPFromString := (ParseEPPFromString strconv_ParseFloat).
#[local] Abbreviation contributes := (contributes strconv_ParseFloat).

(** ** The library models on small inputs *)

Example Split_markers :
  strings.Split "a[X]b[X]" "[X]" = ["a"; "b"; ""] ∧
  strings.Split "" "[X]" = [""] ∧
  strings.Split "[X][X" "[X]" = [""; "[X"].
Proof. by vm_compute. Qed.

Example TrimSpace_sides :
  strings.TrimSpace (" " +:+ newline +:+ "a b" +:+ String CR newline) = "a b" ∧
  strings.TrimSpace (String (ascii_of_nat 194) (String (ascii_of_nat 160) "x"))
    = "x" ∧
  strings.TrimSpace "   " = "".
Proof. by vm_compute. Qed.

Example Read_plain : csv.Read "a,b,,c" = inr ["a"; "b"; ""; "c"].
Proof. reflexivity. Qed.

Example Read_quoted :
  csv.Read (quoted "a,b" +:+ ",c" +:+ newline +:+ "d,e") = inr ["a,b"; "c"].
Proof. by vm_compute. Qed.

Example Read_quoted_line_break :
  csv.Read (String quote ("a" +:+ newline +:+ "b") +:+ quoted "" +:+ "c"
            +:+ String quote ",d")
    = inr ["a" +:+ newline +:+ "b" +:+ String quote "c"; "d"].
Proof. by vm_compute. Qed.

Example Read_errors :
  csv.Read "" = inl EOF ∧
  csv.Read newline = inl EOF ∧
  csv.Read ("a" +:+ String quote "b") = inl ErrBareQuote ∧
  csv.Read (String quote "ab") = inl ErrQuote ∧
  csv.Read (quoted "ab" +:+ "c") = inl ErrQuote.
Proof. by vm_compute. Qed.

Example Parse_layout :
  time.Parse_20060102150405 "20240229235959"
    = Some (time.mkTime 2024 2 29 23 59 59 0) ∧
  time.Parse_20060102150405 "20230229000000" = None ∧
  time.Parse_20060102150405 "20231301000000" = None ∧
  time.Parse_20060102150405 "20230101240000" = None ∧
  time.Parse_20060102150405 "20230615143000.25"
    = Some (time.mkTime 2023 6 15 14 30 0 250000000).
Proof. by vm_compute. Qed.

Example Format_month :
  time.Format_2006_01 (time.mkTime 2023 6 15 14 30 0 0) = "2023-06" ∧
  time.Format_2006_01 (time.mkTime 987 12 1 0 0 0 0) = "0987-12".
Proof. by vm_compute. Qed.

Example GroupInvoicesByMonth_sample :
  GroupInvoicesByMonth sampleInvoices !! "2023-06"
    = Some [issuedOn "1" (time.mkTime 2023 6 15 0 0 0 0);
            issuedOn "4" (time.mkTime 2023 6 30 23 59 59 0)] ∧
  GroupInvoicesByMonth sampleInvoices !! "2023-07"
    = Some [issuedOn "3" (time.mkTime 2023 7 1 12 0 0 0)] ∧
  GroupInvoicesByMonth sampleInvoices !! "0001-01" = None ∧
  size (GroupInvoicesByMonth sampleInvoices) = 2.
Proof. by vm_compute. Qed.

(** ** The header and item mappers *)

Lemma ParseHeader_eval (fields : list string) :
  ParseHeader fields =
    if length fields =? 19 then Panicked (IndexOutOfRange 19 19)
    else Returned (headerTable fields).
Proof.
  do 47 (destruct fields as [|? fields]; [reflexivity|]).
  reflexivity.
Qed.

Lemma ParseItem_eval (fields : list string) :
  ParseItem fields = Returned (itemTable fields).
Proof.
  do 8 (destruct fields as [|? fields]; [reflexivity|]).
  reflexivity.
Qed.

(** ** The date parser *)

Lemma is_digit_range (c : ascii) :
  is_digit c = true → 48 ≤ nat_of_ascii c ≤ 57.
Proof.
  unfold is_digit. intros H. apply andb_prop in H as [H1 H2].
  apply Nat.leb_le in H1. apply Nat.leb_le in H2. lia.
Qed.

Lemma digit_val_range (c : ascii) :
  is_digit c = true → (0 ≤ digit_val c ≤ 9)%Z.
Proof. intros H%is_digit_range. unfold digit_val. lia. Qed.

Lemma is_digit_not (c d : ascii) :
  is_digit c = true → is_digit d = false → byte_eqb c d = false.
Proof.
  intros Hc Hd. unfold byte_eqb. apply Ascii.eqb_neq. congruence.
Qed.

Lemma leadingInt_digit (x : Z) (c : ascii) (s : string) :
  is_digit c = true → (0 ≤ x < 10000)%Z →
  time.leadingInt x (String c s) = time.leadingInt (x * 10 + digit_val c) s.
Proof.
  intros Hc Hx. pose proof (digit_val_range c Hc) as Hd.
  cbn [time.leadingInt]. rewrite Hc.
  destruct (Z.ltb_spec (2 ^ 63 / 10) x) as [Hlt|_].
  { change (2 ^ 63 / 10)%Z with 922337203685477580%Z in Hlt. lia. }
  cbv zeta.
  destruct (Z.ltb_spec (2 ^ 63) (x * 10 + digit_val c)) as [Hlt|_]; [|done].
  change (2 ^ 63)%Z with 9223372036854775808%Z in Hlt. lia.
Qed.

Lemma leadingInt_stop (x : Z) (c : ascii) (s : string) :
  is_digit c = false → time.leadingInt x (String c s) = Some (x, String c s).
Proof. intros Hc. cbn [time.leadingInt]. by rewrite Hc. Qed.

(** The year chunk: four bytes, the first of which is a digit. *)
Lemma atoi_year (y1 y2 y3 y4 : ascii) :
  is_digit y1 = true →
  time.atoi (String y1 (String y2 (String y3 (String y4 EmptyString)))) =
    if is_digit y2 && is_digit y3 && is_digit y4
    then Some (number [y1; y2; y3; y4]) else None.
Proof.
  intros H1. pose proof (digit_val_range y1 H1) as B1.
  unfold time.atoi.
  rewrite (is_digit_not y1 "-" H1 eq_refl), (is_digit_not y1 "+" H1 eq_refl).
  rewrite leadingInt_digit by (done || lia).
  destruct (is_digit y2) eqn:H2; [|by rewrite leadingInt_stop].
  pose proof (digit_val_range y2 H2) as B2.
  rewrite leadingInt_digit by (done || lia).
  destruct (is_digit y3) eqn:H3; [|by rewrite leadingInt_stop].
  pose proof (digit_val_range y3 H3) as B3.
  rewrite leadingInt_digit by (done || lia).
  destruct (is_digit y4) eqn:H4; [|by rewrite leadingInt_stop].
  rewrite leadingInt_digit by (done || lia).
  reflexivity.
Qed.

Lemma getnum_two (c0 c1 : ascii) (rest : string) (fixed : bool) :
  time.getnum (String c0 (String c1 rest)) fixed =
    if is_digit c0 then
      if is_digit c1 then Some (number [c0; c1], rest)
      else if fixed then None else Some (digit_val c0, String c1 rest)
    else None.
Proof.
  unfold time.getnum, time.isDigit. cbn [String.get Nat.eqb].
  destruct (is_digit c0), (is_digit c1); reflexivity.
Qed.

Lemma getnum_not_digit (c : ascii) (rest : string) (fixed : bool) :
  is_digit c = false → time.getnum (String c rest) fixed = None.
Proof. intros H. unfold time.getnum, time.isDigit. cbn. by rewrite H. Qed.

Lemma isLeap_leapYear (year : Z) : time.isLeap year = leapYear year.
Proof.
  unfold time.isLeap, leapYear.
  destruct (Z.eqb_spec (year mod 400) 0), (Z.eqb_spec (year mod 100) 0),
    (Z.eqb_spec (year mod 4) 0); try reflexivity; exfalso;
    Z.div_mod_to_equations; lia.
Qed.

Lemma daysIn_daysOfMonth (year month : Z) :
  (1 ≤ month ≤ 12)%Z → time.daysIn month year = daysOfMonth year month.
Proof.
  intros Hm. unfold time.daysIn, daysOfMonth. rewrite isLeap_leapYear.
  assert (month = 1 ∨ month = 2 ∨ month = 3 ∨ month = 4 ∨ month = 5 ∨
          month = 6 ∨ month = 7 ∨ month = 8 ∨ month = 9 ∨ month = 10 ∨
          month = 11 ∨ month = 12)%Z as Hcases by lia.
  repeat destruct Hcases as [->|Hcases]; try subst month;
    cbn; destruct (leapYear year); reflexivity.
Qed.

Lemma number_two_range (c0 c1 : ascii) :
  is_digit c0 = true → is_digit c1 = true → (0 ≤ number [c0; c1] ≤ 99)%Z.
Proof.
  intros H0%digit_val_range H1%digit_val_range. unfold number. cbn. lia.
Qed.

(** A byte that is no digit ends both the parse and the validity check. *)
Ltac digit_case c H := destruct (is_digit c) eqn:H; [|reflexivity].

(** A range test of [Parse] against the one of [validTimestamp]. *)
Ltac range_case x lo hi :=
  let above := eval compute in (hi + 1)%Z in
  destruct (Z.ltb_spec x lo), (Z.leb_spec above x), (Z.leb_spec x hi);
  try lia; cbn [orb andb]; rewrite ?andb_false_r; try reflexivity.

Lemma ParseDate_valid (dateStr : string) :
  ParseDate dateStr = default time.zero (validTimestamp dateStr).
Proof.
  do 14 (destruct dateStr as [|? dateStr]; [reflexivity|]).
  destruct dateStr; [|reflexivity].
  rename a into y1, a0 into y2, a1 into y3, a2 into y4, a3 into m1,
    a4 into m2, a5 into d1, a6 into d2, a7 into h1, a8 into h2,
    a9 into n1, a10 into n2, a11 into s1, a12 into s2.
  unfold ParseDate, validTimestamp, time.Parse_20060102150405.
  cbn [String.length Nat.eqb Nat.ltb Nat.leb orb String.list_ascii_of_string
       forallb strings.slice_to strings.slice_from time.isDigit String.get].
  digit_case y1 Hy1. cbn [negb andb]. rewrite atoi_year by done.
  digit_case y2 Hy2. digit_case y3 Hy3. digit_case y4 Hy4.
  cbn [andb mbind option_bind]. rewrite getnum_two.
  digit_case m1 Hm1. digit_case m2 Hm2.
  pose proof (number_two_range m1 m2 Hm1 Hm2) as Bm.
  cbn [andb mbind option_bind].
  set (year := number [y1; y2; y3; y4]). set (month := number [m1; m2]) in *.
  destruct (Z.leb_spec month 0) as [Hm|Hm]; cbn [orb].
  { rewrite (proj2 (Z.leb_gt 1 month)) by lia. cbn [andb].
    by destruct (is_digit d1 && _). }
  destruct (Z.ltb_spec 12 month) as [Hm'|Hm'].
  { rewrite (proj2 (Z.leb_gt month 12)) by lia. rewrite andb_false_r.
    cbn [andb]. by destruct (is_digit d1 && _). }
  rewrite (proj2 (Z.leb_le 1 month)), (proj2 (Z.leb_le month 12)) by lia.
  cbn [andb]. rewrite getnum_two.
  digit_case d1 Hd1. digit_case d2 Hd2.
  pose proof (number_two_range d1 d2 Hd1 Hd2) as Bd.
  cbn [andb mbind option_bind]. rewrite getnum_two.
  digit_case h1 Hh1.
  destruct (is_digit h2) eqn:Hh2; cbn [andb mbind option_bind].
  2: { rewrite getnum_not_digit by done. by destruct (_ || _). }
  pose proof (number_two_range h1 h2 Hh1 Hh2) as Bh.
  set (day := number [d1; d2]) in *. set (hour := number [h1; h2]) in *.
  rewrite getnum_two.
  destruct (is_digit n1) eqn:Hn1.
  2: { cbn [andb]. by destruct (_ || _). }
  destruct (is_digit n2) eqn:Hn2.
  2: { cbn [andb]. by destruct (_ || _). }
  pose proof (number_two_range n1 n2 Hn1 Hn2) as Bn.
  set (minute := number [n1; n2]) in *.
  cbn [andb mbind option_bind]. rewrite getnum_two.
  destruct (is_digit s1) eqn:Hs1.
  2: { cbn [andb mbind option_bind]. destruct (_ || _); [done|]. by destruct (_ || _). }
  destruct (is_digit s2) eqn:Hs2.
  2: { cbn [andb mbind option_bind]. destruct (_ || _); [done|]. by destruct (_ || _). }
  pose proof (number_two_range s1 s2 Hs1 Hs2) as Bs.
  set (second := number [s1; s2]) in *.
  cbn [andb mbind option_bind time.fractionalSecond String.length Nat.eqb negb].
  rewrite daysIn_daysOfMonth by lia. unfold time.Date.
  range_case hour 0%Z 23%Z. range_case minute 0%Z 59%Z.
  range_case second 0%Z 59%Z.
  destruct (Z.ltb_spec day 1), (Z.leb_spec 1 day); try lia;
    cbn [orb andb]; try reflexivity.
  destruct (Z.ltb_spec (daysOfMonth year month) day),
    (Z.leb_spec day (daysOfMonth year month)); try lia; reflexivity.
Qed.

(** ** Strings: occurrences, [Index] and [Split] *)

Lemma append_cons (x : ascii) (a b : string) :
  String x a +:+ b = String x (a +:+ b).
Proof. reflexivity. Qed.

Lemma append_assoc (a b c : string) : (a +:+ b) +:+ c = a +:+ b +:+ c.
Proof. induction a as [|x a IH]; [done|]. rewrite !append_cons. by f_equal. Qed.

Lemma length_append (a b : string) :
  String.length (a +:+ b) = String.length a + String.length b.
Proof.
  induction a as [|x a IH]; [done|]. rewrite append_cons. simpl. by f_equal.
Qed.

Lemma slice_to_append (a b : string) :
  strings.slice_to (a +:+ b) (String.length a) = a.
Proof.
  induction a as [|x a IH]; [by destruct b|].
  rewrite append_cons. simpl. by f_equal.
Qed.

Lemma slice_from_append (a b : string) (n : nat) :
  strings.slice_from (a +:+ b) (String.length a + n) = strings.slice_from b n.
Proof. induction a as [|x a IH]; [done|]. by rewrite append_cons. Qed.

Lemma slice_from_zero (s : string) : strings.slice_from s 0 = s.
Proof. by destruct s. Qed.

Lemma HasPrefix_append (s p : string) :
  strings.HasPrefix s p = true ↔ ∃ rest, s = p +:+ rest.
Proof.
  revert s. induction p as [|x p IH]; intros s.
  { split; [intros _; by exists s|done]. }
  destruct s as [|y s]; simpl.
  { split; [done|]. by intros [rest Hrest]. }
  unfold byte_eqb. destruct (Ascii.eqb_spec x y) as [->|Hne]; simpl.
  - rewrite IH. split; intros [rest Hrest]; exists rest.
    + by rewrite append_cons, <- Hrest.
    + rewrite append_cons in Hrest. congruence.
  - split; [done|]. intros [rest Hrest]. rewrite append_cons in Hrest.
    congruence.
Qed.

Lemma Index_None (s sep : string) :
  strings.Index s sep = None → ¬ occurs sep s.
Proof.
  induction s as [|x s IH]; cbn; intros Hidx [before [after Heq]].
  - destruct (strings.HasPrefix "" sep) eqn:Hp; [done|].
    destruct before; [|done].
    assert (strings.HasPrefix "" sep = true) by (apply HasPrefix_append; eauto).
    congruence.
  - destruct (strings.HasPrefix (String x s) sep) eqn:Hp; [done|].
    destruct before as [|y before].
    + assert (strings.HasPrefix (String x s) sep = true)
        by (apply HasPrefix_append; eauto).
      congruence.
    + destruct (strings.Index s sep) eqn:Hs; [done|].
      apply IH; [done|]. exists before, after.
      rewrite append_cons in Heq. congruence.
Qed.

Lemma Index_Some (s sep : string) (m : nat) :
  strings.Index s sep = Some m →
  ∃ before after, firstSplit sep s before after ∧ String.length before = m.
Proof.
  revert m. induction s as [|x s IH]; cbn; intros m Hidx.
  - destruct (strings.HasPrefix "" sep) eqn:Hp; [|done].
    injection Hidx as <-. apply HasPrefix_append in Hp as [rest Hrest].
    exists "", rest. repeat split; [done|]. intros; cbn; lia.
  - destruct (strings.HasPrefix (String x s) sep) eqn:Hp.
    + injection Hidx as <-. apply HasPrefix_append in Hp as [rest Hrest].
      exists "", rest. repeat split; [done|]. intros; cbn; lia.
    + destruct (strings.Index s sep) as [m'|] eqn:Hs; [|done].
      injection Hidx as <-.
      destruct (IH m' eq_refl) as (before & after & [Heq Hmin] & Hlen).
      exists (String x before), after. repeat split.
      * by rewrite append_cons, <- Heq.
      * intros [|y before'] after' Heq'.
        { assert (strings.HasPrefix (String x s) sep = true)
            by (apply HasPrefix_append; eauto).
          congruence. }
        rewrite append_cons in Heq'. injection Heq' as -> Heq'.
        specialize (Hmin _ _ Heq'). cbn. lia.
      * cbn. by rewrite Hlen.
Qed.

(** The slices [s[:m]] and [s[m+len(sep):]] the callers of [Index] take. *)
Lemma Index_slices (s sep : string) (m : nat) :
  strings.Index s sep = Some m →
  firstSplit sep s (strings.slice_to s m)
    (strings.slice_from s (m + String.length sep)).
Proof.
  intros (before & after & [Heq Hmin] & <-)%Index_Some.
  assert (strings.slice_to s (String.length before) = before) as ->.
  { rewrite Heq. apply slice_to_append. }
  assert (strings.slice_from s (String.length before + String.length sep)
          = after) as ->; [|done].
  rewrite Heq at 1. rewrite slice_from_append.
  rewrite <- (Nat.add_0_r (String.length sep)).
  by rewrite slice_from_append, slice_from_zero.
Qed.

Lemma firstSplit_no_earlier (sep s before after : string) :
  sep ≠ "" → firstSplit sep s before after → ¬ occurs sep before.
Proof.
  intros Hsep [Heq Hmin] (b & a & Hb).
  specialize (Hmin b (a +:+ sep +:+ after)).
  rewrite Heq, Hb, !append_assoc in Hmin. specialize (Hmin eq_refl).
  rewrite !length_append in Hmin. destruct sep; [done|]. simpl in Hmin. lia.
Qed.

Lemma not_occurs_empty (sep : string) : sep ≠ "" → ¬ occurs sep "".
Proof.
  intros Hsep (before & after & Heq). destruct before; [|done].
  destruct sep; [done|discriminate].
Qed.

Lemma genSplit_spec (sep : string) (n : nat) (s : string) :
  sep ≠ "" → String.length s ≤ n →
  ∃ first rest,
    strings.genSplit n s sep = first :: rest ∧
    strings.Join (first :: rest) sep = s ∧
    Forall (λ block, ¬ occurs sep block) (first :: rest).
Proof.
  intros Hsep. revert s. induction n as [|n IH]; intros s Hlen.
  - destruct s; [|simpl in Hlen; lia]. exists "", [].
    split; [done|]. split; [done|].
    constructor; [|constructor]. by apply not_occurs_empty.
  - cbn [strings.genSplit].
    destruct (strings.Index s sep) as [m|] eqn:Hidx.
    + pose proof (Index_slices _ _ _ Hidx) as Hfirst.
      set (before := strings.slice_to s m) in *.
      set (after := strings.slice_from s (m + String.length sep)) in *.
      destruct (IH after) as (first & rest & Hsplit & Hjoin & Hall).
      { destruct Hfirst as [Heq _]. rewrite Heq, !length_append in Hlen.
        destruct sep; [done|]. simpl in Hlen. lia. }
      exists before, (first :: rest). rewrite Hsplit.
      split; [done|]. split.
      * change (before +:+ sep +:+ strings.Join (first :: rest) sep = s).
        rewrite Hjoin. exact (eq_sym (proj1 Hfirst)).
      * constructor; [|done]. by eapply firstSplit_no_earlier.
    + exists s, []. split; [done|]. split; [done|].
      constructor; [|constructor]. by apply Index_None.
Qed.

Lemma Split_spec (s sep : string) :
  sep ≠ "" →
  ∃ first rest,
    strings.Split s sep = first :: rest ∧
    strings.Join (first :: rest) sep = s ∧
    Forall (λ block, ¬ occurs sep block) (first :: rest).
Proof. intros Hsep. by apply genSplit_spec. Qed.

(** ** The section splitter *)

Lemma appendSection_contributes (sections : list Section_) (block : string) :
  ∃ c, blockContributes block c ∧
       appendSection sections block = sections ++ option_list c.
Proof.
  unfold appendSection.
  destruct (strings.Index block contentTag) as [idx|] eqn:Hidx.
  - eexists (Some _). split; [|done]. right.
    eexists _, _. split; [by apply Index_slices|done].
  - exists None. split; [|by rewrite app_nil_r]. left.
    split; [by apply Index_None|done].
Qed.

Lemma foldl_appendSection (blocks : list string) (sections : list Section_) :
  ∃ contributions,
    Forall2 blockContributes blocks contributions ∧
    foldl appendSection sections blocks = sections ++ omap id contributions.
Proof.
  revert sections. induction blocks as [|block blocks IH]; intros sections.
  - exists []. split; [constructor|by rewrite app_nil_r].
  - destruct (appendSection_contributes sections block) as (c & Hc & Heq).
    destruct (IH (appendSection sections block)) as (cs & Hcs & Hfold).
    exists (c :: cs). split; [by constructor|].
    cbn [foldl]. rewrite Hfold, Heq, <- app_assoc. by destruct c.
Qed.

Lemma ParseSections_info (preamble : string) :
  preambleInfo preamble
    match strings.Index preamble infoTag with
    | Some idx =>
        strings.TrimSpace
          (strings.slice_from preamble (idx + String.length infoTag))
    | None => ""
    end.
Proof.
  destruct (strings.Index preamble infoTag) as [idx|] eqn:Hidx.
  - right. eexists _, _. split; [by apply Index_slices|done].
  - left. split; [by apply Index_None|done].
Qed.

(** C8: [ParseSections] splits the text at every [NAGLOWEK] marker; a
    block after the first marker without a [ZAWARTOSC] marker contributes
    no section, a block with one contributes exactly the section made of
    the trimmed text before and the trimmed text after its first
    [ZAWARTOSC]; the sections come in the order of their blocks; the info
    string is the trimmed text after the first [INFO] of the preamble, or
    empty when the preamble has none. *)
Theorem ParseSections_blocks (input : string) :
  ∃ preamble blocks contributions,
    strings.Split input headerTag = preamble :: blocks ∧
    strings.Join (preamble :: blocks) headerTag = input ∧
    Forall (λ block, ¬ occurs headerTag block) (preamble :: blocks) ∧
    Forall2 blockContributes blocks contributions ∧
    Sections (ParseSections input) = omap id contributions ∧
    preambleInfo preamble (Info (ParseSections input)).
Proof.
  destruct (Split_spec input headerTag) as (preamble & blocks & Hs & Hj & Hn);
    [done|].
  destruct (foldl_appendSection blocks []) as (contributions & Hc & Hfold).
  exists preamble, blocks, contributions.
  unfold ParseSections. rewrite Hs. cbn [tail Sections Info].
  repeat (split; [done|]). apply ParseSections_info.
Qed.

(** ** The type filter *)

Lemma shouldInclude_true (options : ParseOptions) (invoiceType : string) :
  shouldInclude options invoiceType = true ↔
    invoiceType = "FZ" ∨ invoiceType = "FS" ∨
    (invoiceType = "KFZ" ∧ IncludeFZ options = true) ∨
    (invoiceType = "KFS" ∧ IncludeFS options = true).
Proof.
  unfold shouldInclude.
  rewrite !orb_true_iff, !andb_true_iff, !String.eqb_eq. tauto.
Qed.

Lemma shouldInclude_nonempty (options : ParseOptions) (invoiceType : string) :
  shouldInclude options invoiceType = true → invoiceType ≠ "".
Proof. intros H ->. by destruct options as [[] []]. Qed.

(** C1: a type of "FZ" or "FS" passes the inclusion filter whatever the
    flags are; "KFZ" passes exactly when [IncludeFZ] is set and "KFS"
    exactly when [IncludeFS] is set; no other type passes. *)
Theorem shouldInclude_by_type (options : ParseOptions) (invoiceType : string) :
  shouldInclude options "FZ" = true ∧
  shouldInclude options "FS" = true ∧
  shouldInclude options "KFZ" = IncludeFZ options ∧
  shouldInclude options "KFS" = IncludeFS options ∧
  (shouldInclude options invoiceType = true ↔
     invoiceType = "FZ" ∨ invoiceType = "FS" ∨
     (invoiceType = "KFZ" ∧ IncludeFZ options = true) ∨
     (invoiceType = "KFS" ∧ IncludeFS options = true)).
Proof.
  repeat split; try (by destruct options as [[] []]);
    by apply shouldInclude_true.
Qed.

(** ** The document assembler *)


Lemma ParseCSVLine_empty : ParseCSVLine "" = Failed (CSVReadError EOF).
Proof. reflexivity. Qed.

Lemma settled_initial : settled (mkLoopState Invoice_zero []) = [].
Proof. reflexivity. Qed.

Lemma Type_set_Items (items : list InvoiceItem) (invoice : Invoice) :
  Type_ (set_Items items invoice) = Type_ invoice.
Proof. by destruct invoice. Qed.

Lemma Items_set_Items (items : list InvoiceItem) (invoice : Invoice) :
  Items (set_Items items invoice) = items.
Proof. by destruct invoice. Qed.

Lemma set_Items_twice (items items' : list InvoiceItem) (invoice : Invoice) :
  set_Items items (set_Items items' invoice) = set_Items items invoice.
Proof. by destruct invoice. Qed.

Lemma ParseHeader_Type (fields : list string) (invoice : Invoice) :
  ParseHeader fields = Returned invoice → Type_ invoice = stringAt fields 0.
Proof.
  rewrite ParseHeader_eval. destruct (length fields =? 19); [done|].
  by intros [= <-].
Qed.

(** One turn of the loop either leaves the state alone, for a section that
    does not pass the filter, or settles the pending invoice and starts the
    invoice the section contributes. *)
Lemma processSection_Returned (options : ParseOptions) (st st' : loopState)
    (section : Section_) :
  processSection options st section = Returned st' →
  (passesFilter options section = false ∧ st' = st) ∨
  (passesFilter options section = true ∧
   ∃ invoice, contributes section invoice ∧ Type_ invoice ≠ "" ∧
              st' = mkLoopState invoice (settled st)).
Proof.
  unfold processSection, passesFilter, settled.
  destruct (String.eqb (strings.TrimSpace (Header section)) "") eqn:Hline.
  { intros [= <-]. by left. }
  destruct (ParseCSVLine (strings.TrimSpace (Header section)))
    as [fields| |] eqn:Hfields; cbn; [|done..].
  destruct fields as [|invoiceType fields]; cbn.
  { intros [= <-]. by left. }
  destruct (shouldInclude options invoiceType) eqn:Hinc.
  2: { intros [= <-]. by left. }
  destruct (ParseHeader (invoiceType :: fields)) as [header| |] eqn:Hheader;
    cbn; [|done..].
  destruct (ParseCSVLine (Content section)) as [contentFields| |] eqn:Hcontent;
    cbn; [|done..].
  pose proof (ParseHeader_Type _ _ Hheader) as Htype. cbn in Htype.
  rewrite Type_set_Items, Htype.
  pose proof (shouldInclude_nonempty _ _ Hinc) as Hne.
  apply String.eqb_neq in Hne as Hneb. rewrite Hneb. cbn.
  rewrite ParseItem_eval. cbn. intros [= <-]. right. split; [done|].
  exists (set_Items [itemTable contentFields] header). split.
  - exists (invoiceType :: fields), header, contentFields,
      (itemTable contentFields).
    by rewrite ParseItem_eval.
  - split; [by rewrite Type_set_Items, Htype|].
    by rewrite Items_set_Items, set_Items_twice.
Qed.

Lemma settled_started (invoice : Invoice) (invoices : list Invoice) :
  Type_ invoice ≠ "" →
  settled (mkLoopState invoice invoices) = invoices ++ [invoice].
Proof.
  intros Hne%String.eqb_neq. unfold settled. cbn. by rewrite Hne.
Qed.

Lemma sectionLoop_Returned (options : ParseOptions)
    (sections : list Section_) (st st' : loopState) :
  sectionLoop options sections st = Returned st' →
  ∃ added,
    Forall2 contributes (List.filter (passesFilter options) sections) added ∧
    Forall (λ invoice, Type_ invoice ≠ "") added ∧
    settled st' = settled st ++ added.
Proof.
  revert st. induction sections as [|section sections IH]; intros st; cbn.
  { intros [= <-]. exists []. by rewrite app_nil_r. }
  destruct (processSection options st section) as [st1| |] eqn:Hstep;
    cbn; [|done..].
  intros (added & Hall & Hne & Heq)%IH.
  apply processSection_Returned in Hstep
    as [[-> ->]|(-> & invoice & Hc & Htype & ->)].
  - by exists added.
  - exists (invoice :: added). repeat split; [by constructor..|].
    rewrite Heq, settled_started by done. by rewrite <- app_assoc.
Qed.

(** The invoice list of a returned document, section by section. *)
Lemma ParseEPPFromString_Returned (content : string) (options : ParseOptions)
    (doc : EPPData) :
  ParseEPPFromString content options = Returned doc →
  Forall2 contributes
    (List.filter (passesFilter options) (Sections (ParseSections content)))
    (Invoices doc) ∧
  Forall (λ invoice, Type_ invoice ≠ "") (Invoices doc).
Proof.
  unfold ParseEPPFromString.
  destruct (wrapError InfoPhase _) as [fields| |]; cbn; [|done..].
  destruct (parseInfo fields) as [infoMap| |]; cbn; [|done..].
  destruct (sectionLoop _ _ _) as [st| |] eqn:Hloop; cbn; [|done..].
  intros [= <-]. cbn.
  apply sectionLoop_Returned in Hloop as (added & Hall & Hne & Heq).
  rewrite settled_initial in Heq. cbn in Heq. unfold settled in Heq.
  by rewrite Heq.
Qed.

(** Without an info line the parse fails at once. *)
Lemma ParseEPPFromString_no_info (content : string) (options : ParseOptions) :
  Info (ParseSections content) = "" →
  ParseEPPFromString content options =
    Failed (PhaseError InfoPhase (CSVReadError EOF)).
Proof. intros Hinfo. unfold ParseEPPFromString. by rewrite Hinfo. Qed.

Lemma ParseSections_no_marker (content preamble : string)
    (blocks : list string) :
  strings.Split content headerTag = preamble :: blocks →
  ¬ occurs infoTag preamble →
  Info (ParseSections content) = "".
Proof.
  intros Hsplit Hno. unfold ParseSections. rewrite Hsplit. cbn [Info].
  destruct (strings.Index preamble infoTag) as [idx|] eqn:Hidx; [|done].
  destruct Hno. apply Index_Some in Hidx as (before & after & [Heq _] & _).
  by exists before, after.
Qed.

(** A section that passes the filter and has no content keeps the parse
    from returning a document. *)
Lemma ParseEPPFromString_empty_content (content : string)
    (options : ParseOptions) (section : Section_) (doc : EPPData) :
  In section (Sections (ParseSections content)) →
  passesFilter options section = true →
  Content section = "" →
  ParseEPPFromString content options ≠ Returned doc.
Proof.
  intros Hin Hpass Hempty [Hall _]%ParseEPPFromString_Returned.
  assert (In section
            (List.filter (passesFilter options)
               (Sections (ParseSections content)))) as Hin'
    by (apply filter_In; done).
  apply list_elem_of_In, list_elem_of_lookup_1 in Hin' as [i Hi].
  destruct (Forall2_lookup_l _ _ _ _ _ Hall Hi) as (invoice & _ & Hc).
  destruct Hc as (? & ? & contentFields & ? & _ & _ & Hcontent & _).
  by rewrite Hempty, ParseCSVLine_empty in Hcontent.
Qed.

(** ** Grouping by month *)

Lemma monthBucket_cons (month : string) (invoice : Invoice)
    (invoices : list Invoice) :
  monthBucket month (invoice :: invoices) =
    if negb (time.IsZero (IssueDate invoice)) &&
       String.eqb (time.Format_2006_01 (IssueDate invoice)) month
    then invoice :: monthBucket month invoices
    else monthBucket month invoices.
Proof. reflexivity. Qed.

Lemma foldl_group_lookup (invoices : list Invoice)
    (grouped : gmap string (list Invoice)) (month : string) :
  foldl (λ grouped invoice,
           if negb (time.IsZero (IssueDate invoice)) then
             let month := time.Format_2006_01 (IssueDate invoice) in
             <[month := default [] (grouped !! month) ++ [invoice]]> grouped
           else grouped)
        grouped invoices !! month =
    match monthBucket month invoices with
    | [] => grouped !! month
    | bucket => Some (default [] (grouped !! month) ++ bucket)
    end.
Proof.
  revert grouped. induction invoices as [|invoice invoices IH];
    intros grouped; [done|].
  cbn [foldl]. rewrite IH, monthBucket_cons.
  destruct (time.IsZero (IssueDate invoice)); cbn [negb andb]; [done|].
  cbv zeta.
  destruct (String.eqb_spec (time.Format_2006_01 (IssueDate invoice)) month)
    as [->|Hne].
  - rewrite lookup_insert_eq. cbn [default andb].
    destruct (monthBucket _ invoices); [done|].
    unfold id. by rewrite <- app_assoc.
  - by rewrite lookup_insert_ne.
Qed.

(** C9: the bucket of a month holds exactly the invoices that have an issue
    date rendered as that month, in their order, and a month without such
    an invoice has no bucket; so every invoice with an issue date sits in
    the bucket of its own month and in no other, and an invoice without
    issue date sits in no bucket. *)
Theorem GroupInvoicesByMonth_buckets (invoices : list Invoice) :
  (∀ month,
     GroupInvoicesByMonth invoices !! month =
       match monthBucket month invoices with
       | [] => None
       | bucket => Some bucket
       end) ∧
  (∀ invoice month,
     In invoice (monthBucket month invoices) ↔
       In invoice invoices ∧
       time.IsZero (IssueDate invoice) = false ∧
       time.Format_2006_01 (IssueDate invoice) = month).
Proof.
  split.
  - intros month. unfold GroupInvoicesByMonth.
    rewrite foldl_group_lookup, lookup_empty.
    by destruct (monthBucket month invoices).
  - intros invoice month. unfold monthBucket.
    rewrite filter_In, andb_true_iff, negb_true_iff, String.eqb_eq. tauto.
Qed.

(** ** The claims on the mappers and the assembler *)

(** C7: [ParseDate] returns the timestamp a string names exactly when the
    string is fourteen digits YYYYMMDDHHMMSS naming a valid date and time,
    and the zero timestamp in every other case; it has no error result.
    "20230615143000" gives 2023-06-15 14:30:00; "abc" and the
    thirteen-character "2023061514300" give the zero timestamp. *)
Theorem ParseDate_timestamp_or_zero (dateStr : string) :
  ParseDate dateStr =
    match validTimestamp dateStr with
    | Some t => t
    | None => time.zero
    end ∧
  ParseDate "20230615143000" = time.mkTime 2023 6 15 14 30 0 0 ∧
  ParseDate "abc" = time.zero ∧
  ParseDate "2023061514300" = time.zero.
Proof.
  split; [|by vm_compute].
  rewrite ParseDate_valid. by destruct (validTimestamp dateStr).
Qed.

(** C2: on a header of exactly nineteen fields the guard [len(fields) > 18]
    holds and [fields[19]] is read: [ParseHeader] panics with an index out
    of range and returns no invoice, where the claim expects an invoice
    with an unset category.  From twenty fields on, the category is the
    field at index 19. *)
Theorem ParseHeader_category_boundary (fields : list string) :
  (length fields = 19 →
   ParseHeader fields = Panicked (IndexOutOfRange 19 19)) ∧
  (20 ≤ length fields →
   ∃ invoice, ParseHeader fields = Returned invoice ∧
              fields !! 19 = Some (Category invoice)).
Proof.
  rewrite ParseHeader_eval. split.
  - intros ->. reflexivity.
  - intros Hlen. destruct (Nat.eqb_spec (length fields) 19) as [?|_]; [lia|].
    eexists. split; [done|]. cbn [Category headerTable]. unfold stringAt.
    destruct (fields !! 19) eqn:Hf; [done|].
    apply lookup_ge_None in Hf. lia.
Qed.

(** C3: [ParseHeader] agrees with the index table of the specification on
    every sequence but those of exactly nineteen fields, on which it
    panics instead of leaving the category (index 19) at its zero value. *)
Theorem ParseHeader_against_table (fields : list string) :
  ParseHeader fields =
    if length fields =? 19 then Panicked (IndexOutOfRange 19 19)
    else Returned (headerTable fields).
Proof. apply ParseHeader_eval. Qed.

(** The attributes of the table: the field at the index, converted, or the
    zero value when the sequence is too short. *)
Lemma headerTable_attributes (fields : list string) (i : nat) :
  (i < length fields →
   ∃ field, fields !! i = Some field ∧ stringAt fields i = field ∧
            dateAt fields i = ParseDate field ∧
            floatAt strconv_ParseFloat fields i = ParseFloat field) ∧
  (length fields ≤ i →
   stringAt fields i = "" ∧ dateAt fields i = time.zero ∧
   floatAt strconv_ParseFloat fields i = 0%float).
Proof.
  unfold stringAt, dateAt, floatAt. split.
  - intros [field Hf]%lookup_lt_is_Some_2. exists field. by rewrite Hf.
  - intros Hf%lookup_ge_None. by rewrite Hf.
Qed.

(** The loop turn on a section with the nineteen-field header. *)
Lemma processSection_nineteen (options : ParseOptions) (st : loopState)
    (content : string) :
  processSection options st
    {| Header := nineteenHeader; Content := content |} =
    Panicked (IndexOutOfRange 19 19).
Proof.
  assert (ParseCSVLine (strings.TrimSpace nineteenHeader)
          = Returned nineteenFields) as Hfields by (by vm_compute).
  assert (String.eqb (strings.TrimSpace nineteenHeader) "" = false) as Hline
    by (by vm_compute).
  unfold processSection. cbn [Header]. rewrite Hline, Hfields.
  cbn [wrapError mbind outcome_bind nineteenFields length Nat.ltb Nat.leb].
  change (index nineteenFields 0) with (Returned "FZ" : outcome string).
  cbn [mbind outcome_bind].
  replace (shouldInclude options "FZ") with true
    by (by destruct options as [[] []]).
  by rewrite ParseHeader_eval.
Qed.

Lemma passesFilter_nineteen (options : ParseOptions) (content : string) :
  passesFilter options {| Header := nineteenHeader; Content := content |}
    = true.
Proof.
  assert (ParseCSVLine (strings.TrimSpace nineteenHeader)
          = Returned nineteenFields) as Hfields by (by vm_compute).
  assert (String.eqb (strings.TrimSpace nineteenHeader) "" = false) as Hline
    by (by vm_compute).
  unfold passesFilter. cbn [Header]. rewrite Hline, Hfields.
  by destruct options as [[] []].
Qed.

(** A document of one section, with the nineteen-field header. *)
Lemma ParseEPPFromString_nineteen (options : ParseOptions)
    (document content : string) :
  ParseSections document =
    {| Info := "1.05,3";
       Sections := [{| Header := nineteenHeader; Content := content |}] |} →
  ParseEPPFromString document options = Panicked (IndexOutOfRange 19 19).
Proof.
  intros Hsections. unfold ParseEPPFromString. rewrite Hsections.
  cbn [Info Sections].
  change (ParseCSVLine "1.05,3") with (Returned ["1.05"; "3"]).
  cbn [wrapError mbind outcome_bind sectionLoop].
  change (parseInfo ["1.05"; "3"])
    with (Returned (<["version" := "1.05"]> (∅ : gmap string string))).
  cbn [mbind outcome_bind]. by rewrite processSection_nineteen.
Qed.

(** C4: a section that passes the filter and whose content tokenizes does
    not get its item when its header has exactly nineteen fields: the turn
    of the loop panics in [ParseHeader] before the content is read, and so
    does the parse of a document holding that section. *)
Theorem processSection_nineteen_fields_panics (options : ParseOptions)
    (st : loopState) :
  passesFilter options nineteenSection = true ∧
  ParseCSVLine (Content nineteenSection) =
    Returned ["23"; "1"; "100.00"; "23.00"; "123.00"; "100.00"; "23.00"; "123.00"] ∧
  processSection options st nineteenSection =
    Panicked (IndexOutOfRange 19 19) ∧
  Sections (ParseSections nineteenItemDocument) = [nineteenSection] ∧
  ParseEPPFromString nineteenItemDocument options =
    Panicked (IndexOutOfRange 19 19).
Proof.
  split; [apply passesFilter_nineteen|].
  split; [by vm_compute|].
  split; [apply processSection_nineteen|].
  assert (ParseSections nineteenItemDocument =
          {| Info := "1.05,3"; Sections := [nineteenSection] |})
    as Hsections by (by vm_compute).
  split; [by rewrite Hsections|].
  by eapply ParseEPPFromString_nineteen.
Qed.

(** Every other section that passes the filter contributes an invoice with
    exactly one item, mapped from its tokenized content. *)
Lemma returned_invoices_one_item (content : string) (options : ParseOptions)
    (doc : EPPData) :
  ParseEPPFromString content options = Returned doc →
  Forall2 contributes
    (List.filter (passesFilter options) (Sections (ParseSections content)))
    (Invoices doc) ∧
  Forall (λ invoice, length (Items invoice) = 1) (Invoices doc).
Proof.
  intros [Hall _]%ParseEPPFromString_Returned. split; [done|].
  induction Hall as [|section invoice ? ? Hc _ IH]; constructor; [|done].
  destruct Hc as (? & ? & ? & ? & _ & _ & _ & _ & ->).
  by rewrite Items_set_Items.
Qed.

(** C5: when the final section of the document passes the filter, the
    invoice built from it is the last invoice of the returned document. *)
Theorem final_section_invoice_kept (content : string) (options : ParseOptions)
    (doc : EPPData) (front : list Section_) (final : Section_) :
  ParseEPPFromString content options = Returned doc →
  Sections (ParseSections content) = front ++ [final] →
  passesFilter options final = true →
  ∃ invoice, contributes final invoice ∧ last (Invoices doc) = Some invoice.
Proof.
  intros [Hall _]%ParseEPPFromString_Returned Hsections Hpass.
  rewrite Hsections, List.filter_app in Hall. cbn [List.filter] in Hall.
  rewrite Hpass in Hall.
  apply Forall2_app_inv_l in Hall as (settledBefore & tl & _ & Hlast & ->).
  apply Forall2_cons_inv_l in Hlast as (invoice & tl' & Hc & Hnil & ->).
  apply Forall2_nil_inv_l in Hnil as ->.
  exists invoice. split; [done|]. apply last_snoc.
Qed.

(** C6: every invoice of a returned document has a non-empty type. *)
Theorem returned_invoices_have_type (content : string)
    (options : ParseOptions) (doc : EPPData) :
  ParseEPPFromString content options = Returned doc →
  Forall (λ invoice, Type_ invoice ≠ "") (Invoices doc).
Proof. by intros [_ Hne]%ParseEPPFromString_Returned. Qed.

(** C10: a document whose only section passes the filter and has empty
    content, with a header of nineteen fields: the parse panics in
    [ParseHeader] instead of returning the tokenizer's error. *)
Theorem ParseEPPFromString_nineteen_fields_panics (options : ParseOptions) :
  Sections (ParseSections nineteenDocument) =
    [{| Header := nineteenHeader; Content := "" |}] ∧
  passesFilter options {| Header := nineteenHeader; Content := "" |} = true ∧
  ParseEPPFromString nineteenDocument options =
    Panicked (IndexOutOfRange 19 19).
Proof.
  assert (ParseSections nineteenDocument =
          {| Info := "1.05,3";
             Sections := [{| Header := nineteenHeader; Content := "" |}] |})
    as Hsections by (by vm_compute).
  split; [by rewrite Hsections|].
  split; [apply passesFilter_nineteen|].
  by eapply ParseEPPFromString_nineteen.
Qed.

End Properties.

(** ** The properties on the sample inputs *)

Example sampleData_invoices :
  Type_ <$> Invoices sampleData = ["FZ"; "KFS"] ∧
  Number <$> Invoices sampleData = ["FZ 1/2023"; "KFS 2/2023"] ∧
  Category <$> Invoices sampleData = ["Towary"; ""] ∧
  (λ invoice, VatRate <$> Items invoice) <$> Invoices sampleData
    = [["23"]; ["23"]] ∧
  InfoMap sampleData !! "version" = Some "1.05" ∧
  InfoMap sampleData !! "company" = Some "Firma, sp. z o.o.".
Proof. by vm_compute. Qed.

Example sampleDocument_flags_off :
  match ParseEPPFromString decimalLiteral sampleDocument
          (mkParseOptions false false) with
  | Returned doc => Type_ <$> Invoices doc = ["FZ"]
  | _ => False
  end.
Proof. by vm_compute. Qed.

Lemma final_section_invoice_kept_sample :
  ParseEPPFromString decimalLiteral sampleDocument DefaultParseOptions
    = Returned sampleData ∧
  Sections (ParseSections sampleDocument) =
    removelast (Sections (ParseSections sampleDocument)) ++ [sampleFinal] ∧
  passesFilter DefaultParseOptions sampleFinal = true ∧
  ∃ invoice, contributes decimalLiteral sampleFinal invoice ∧
             last (Invoices sampleData) = Some invoice.
Proof.
  assert (ParseEPPFromString decimalLiteral sampleDocument DefaultParseOptions
          = Returned sampleData) as Hdoc by (vm_compute; reflexivity).
  assert (Sections (ParseSections sampleDocument) =
          removelast (Sections (ParseSections sampleDocument)) ++ [sampleFinal])
    as Hsections by (vm_compute; reflexivity).
  assert (passesFilter DefaultParseOptions sampleFinal = true) as Hpass
    by (vm_compute; reflexivity).
  repeat (split; [assumption|]).
  exact (final_section_invoice_kept decimalLiteral sampleDocument
           DefaultParseOptions sampleData _ sampleFinal Hdoc Hsections Hpass).
Defined.

Lemma returned_invoices_have_type_sample :
  ParseEPPFromString decimalLiteral sampleDocument DefaultParseOptions
    = Returned sampleData ∧
  Forall (λ invoice, Type_ invoice ≠ "") (Invoices sampleData).
Proof.
  assert (ParseEPPFromString decimalLiteral sampleDocument DefaultParseOptions
          = Returned sampleData) as Hdoc by (vm_compute; reflexivity).
  split; [assumption|].
  exact (returned_invoices_have_type decimalLiteral sampleDocument
           DefaultParseOptions sampleData Hdoc).
Defined.

Lemma ParseHeader_category_boundary_sample :
  (length nineteenFields = 19 ∧
   ParseHeader decimalLiteral nineteenFields =
     Panicked (IndexOutOfRange 19 19)) ∧
  (20 ≤ length twentyFields ∧
   ∃ invoice, ParseHeader decimalLiteral twentyFields = Returned invoice ∧
              twentyFields !! 19 = Some (Category invoice)).
Proof.
  split.
  - split; [reflexivity|].
    apply (proj1 (ParseHeader_category_boundary decimalLiteral nineteenFields)).
    reflexivity.
  - split; [vm_compute; lia|].
    apply (proj2 (ParseHeader_category_boundary decimalLiteral twentyFields)).
    vm_compute. lia.
Defined.

(** * Further properties of the package *)

(** ** The query helpers *)

(** The loop [for ... { if keep { filtered = append(filtered, x) } }]. *)
Lemma foldl_append_if {A} (keep : A → bool) (l acc : list A) :
  foldl (λ filtered x, if keep x then filtered ++ [x] else filtered) acc l
    = acc ++ List.filter keep l.
Proof.
  revert acc. induction l as [|x l IH]; intros acc; cbn [foldl List.filter].
  - by rewrite app_nil_r.
  - rewrite IH. destruct (keep x); [|done]. by rewrite <- app_assoc.
Qed.

Lemma FilterInvoices_filter (invoices : list Invoice) (invoiceType : string) :
  FilterInvoices invoices invoiceType =
    List.filter (λ invoice, String.eqb (Type_ invoice) invoiceType) invoices.
Proof. unfold FilterInvoices. by rewrite foldl_append_if. Qed.

(** X1: filtering by a type what was filtered by a type already changes
    nothing when the two types are the same and leaves nothing when they
    differ. *)
Theorem FilterInvoices_again (invoices : list Invoice) (t t' : string) :
  FilterInvoices (FilterInvoices invoices t) t' =
    if String.eqb t t' then FilterInvoices invoices t else [].
Proof.
  rewrite !FilterInvoices_filter.
  induction invoices as [|invoice invoices IH]; cbn [List.filter].
  { by destruct (String.eqb t t'). }
  destruct (String.eqb_spec (Type_ invoice) t) as [Ht|Ht]; [|done].
  cbn [List.filter]. rewrite IH, Ht.
  by destruct (String.eqb t t').
Qed.

Lemma wrapInt_small (z : Z) : (0 ≤ z < 2 ^ 63)%Z → wrapInt z = z.
Proof.
  intros Hz. unfold wrapInt.
  rewrite Z.mod_small; [lia|].
  change (2 ^ 63)%Z with 9223372036854775808%Z in *.
  change (2 ^ 64)%Z with 18446744073709551616%Z. lia.
Qed.

Lemma GetInvoiceStats_from (invoices : list Invoice) (fz fs : Z) :
  (0 ≤ fz)%Z → (0 ≤ fs)%Z →
  (fz + Z.of_nat (length invoices) < 2 ^ 63)%Z →
  (fs + Z.of_nat (length invoices) < 2 ^ 63)%Z →
  foldl (λ '(fzCount, fsCount) invoice,
           if String.eqb (Type_ invoice) "FZ"
           then (wrapInt (fzCount + 1), fsCount)
           else if String.eqb (Type_ invoice) "FS"
           then (fzCount, wrapInt (fsCount + 1))
           else (fzCount, fsCount))
        (fz, fs) invoices =
    ((fz + Z.of_nat (length (FilterInvoices invoices "FZ")))%Z,
     (fs + Z.of_nat (length (FilterInvoices invoices "FS")))%Z).
Proof.
  rewrite !FilterInvoices_filter.
  revert fz fs. induction invoices as [|invoice invoices IH];
    intros fz fs Hfz Hfs Bfz Bfs; cbn [foldl List.filter length] in *.
  { f_equal; lia. }
  destruct (String.eqb_spec (Type_ invoice) "FZ") as [Ht|Ht].
  - rewrite Ht. cbn [String.eqb Ascii.eqb Bool.eqb andb length].
    rewrite wrapInt_small by lia. rewrite IH by lia. f_equal; lia.
  - destruct (String.eqb (Type_ invoice) "FS").
    + rewrite wrapInt_small by lia. rewrite IH by lia.
      cbn [length]. f_equal; lia.
    + rewrite IH by lia. f_equal; lia.
Qed.

(** X2: the counts of [GetInvoiceStats] are the lengths of what
    [FilterInvoices] keeps for "FZ" and for "FS"; invoices of any other
    type, "KFZ" and "KFS" among them, are not counted. *)
Theorem GetInvoiceStats_counts (eppData : EPPData) :
  (Z.of_nat (length (Invoices eppData)) < 2 ^ 63)%Z →
  GetInvoiceStats eppData =
    (Z.of_nat (length (FilterInvoices (Invoices eppData) "FZ")),
     Z.of_nat (length (FilterInvoices (Invoices eppData) "FS"))).
Proof.
  intros Hlen. unfold GetInvoiceStats.
  by rewrite GetInvoiceStats_from by lia.
Qed.

Lemma Contains_occurs (s substr : string) :
  strings.Contains s substr = true ↔ occurs substr s.
Proof.
  unfold strings.Contains.
  destruct (strings.Index s substr) as [m|] eqn:Hidx.
  - split; [intros _|done].
    apply Index_Some in Hidx as (before & after & [Heq _] & _).
    by exists before, after.
  - split; [done|]. intros Hocc. by apply Index_None in Hidx.
Qed.

Lemma GetInvoicesByContractor_filter (invoices : list Invoice)
    (contractorCode : string) :
  GetInvoicesByContractor invoices contractorCode =
    List.filter
      (λ invoice, strings.Contains (ContractorCode invoice) contractorCode)
      invoices.
Proof. unfold GetInvoicesByContractor. by rewrite foldl_append_if. Qed.

(** X3: [GetInvoicesByContractor] returns exactly the invoices whose
    contractor code contains the given text as a substring, byte for
    byte, whatever surrounds it. *)
Theorem GetInvoicesByContractor_substring (invoices : list Invoice)
    (contractorCode : string) (invoice : Invoice) :
  In invoice (GetInvoicesByContractor invoices contractorCode) ↔
    In invoice invoices ∧ occurs contractorCode (ContractorCode invoice).
Proof.
  by rewrite GetInvoicesByContractor_filter, filter_In, Contains_occurs.
Qed.

(** X4: with the empty text [GetInvoicesByContractor] returns every
    invoice. *)
Theorem GetInvoicesByContractor_empty_code (invoices : list Invoice) :
  GetInvoicesByContractor invoices "" = invoices.
Proof.
  rewrite GetInvoicesByContractor_filter.
  induction invoices as [|invoice invoices IH]; [done|].
  cbn [List.filter].
  replace (strings.Contains (ContractorCode invoice) "") with true;
    [by rewrite IH|].
  symmetry. apply Contains_occurs. by exists "", (ContractorCode invoice).
Qed.

Lemma occurs_trans (a b c : string) : occurs a b → occurs b c → occurs a c.
Proof.
  intros (b1 & b2 & ->) (c1 & c2 & ->).
  exists (c1 +:+ b1), (b2 +:+ c2). by rewrite !append_assoc.
Qed.

(** X5: a longer text narrows the result: when [shorter] occurs in
    [longer], what [GetInvoicesByContractor] returns for [longer] is a
    sublist of what it returns for [shorter]. *)
Theorem GetInvoicesByContractor_narrows (invoices : list Invoice)
    (shorter longer : string) :
  occurs shorter longer →
  sublist (GetInvoicesByContractor invoices longer)
          (GetInvoicesByContractor invoices shorter).
Proof.
  intros Hocc. rewrite !GetInvoicesByContractor_filter.
  induction invoices as [|invoice invoices IH]; [done|].
  cbn [List.filter].
  destruct (strings.Contains (ContractorCode invoice) longer) eqn:Hl.
  - apply Contains_occurs in Hl.
    rewrite (proj2 (Contains_occurs _ shorter)) by by eapply occurs_trans.
    by apply sublist_skip.
  - destruct (strings.Contains (ContractorCode invoice) shorter);
      [by apply sublist_cons|done].
Qed.

Lemma GetInvoicesByDateRange_filter (invoices : list Invoice)
    (start end_ : time.Time) :
  GetInvoicesByDateRange invoices start end_ =
    List.filter
      (λ invoice,
         negb (time.IsZero (IssueDate invoice)) &&
         time.After (IssueDate invoice) start &&
         time.Before (IssueDate invoice) end_)
      invoices.
Proof. unfold GetInvoicesByDateRange. by rewrite foldl_append_if. Qed.

Lemma After_Before (t start end_ : time.Time) :
  time.After t start = true → time.Before t end_ = true →
  time.Before start end_ = true ∧
  time.abs t ≠ time.abs start ∧ time.abs t ≠ time.abs end_.
Proof.
  unfold time.After, time.Before.
  destruct (time.abs t) as [ts tn], (time.abs start) as [ss sn],
    (time.abs end_) as [es en].
  rewrite !orb_true_iff, !andb_true_iff, !Z.ltb_lt, !Z.eqb_eq.
  intros Ha Hb. repeat split; [lia| |]; intros [= ? ?]; lia.
Qed.

(** X6: both bounds of [GetInvoicesByDateRange] are exclusive, and an
    invoice without issue date is never returned, wherever the zero time
    lies with respect to the bounds. *)
Theorem GetInvoicesByDateRange_exclusive (invoices : list Invoice)
    (start end_ : time.Time) :
  Forall (λ invoice,
            In invoice invoices ∧
            time.IsZero (IssueDate invoice) = false ∧
            time.abs (IssueDate invoice) ≠ time.abs start ∧
            time.abs (IssueDate invoice) ≠ time.abs end_)
         (GetInvoicesByDateRange invoices start end_).
Proof.
  rewrite GetInvoicesByDateRange_filter. apply List.Forall_forall.
  intros invoice [Hin Hkeep]%filter_In.
  apply andb_prop in Hkeep as [[Hz Ha]%andb_prop Hb].
  apply negb_true_iff in Hz.
  by destruct (After_Before _ _ _ Ha Hb) as (_ & ? & ?).
Qed.

(** X7: when [start] is not before [end], [GetInvoicesByDateRange] returns
    nothing. *)
Theorem GetInvoicesByDateRange_empty_range (invoices : list Invoice)
    (start end_ : time.Time) :
  time.Before start end_ = false →
  GetInvoicesByDateRange invoices start end_ = [].
Proof.
  intros Hnot. rewrite GetInvoicesByDateRange_filter.
  induction invoices as [|invoice invoices IH]; [done|].
  cbn [List.filter]. rewrite IH.
  destruct (negb _ && time.After _ _ && time.Before _ _) eqn:Hkeep; [|done].
  apply andb_prop in Hkeep as [[_ Ha]%andb_prop Hb].
  destruct (After_Before _ _ _ Ha Hb) as (? & _). congruence.
Qed.

(** ** The switches of the command line *)

(** X8: the options [main] builds keep "FZ" and "FS" in every case:
    [-fz-only] only leaves out "KFS" and [-fs-only] only leaves out
    "KFZ". *)
Theorem cliOptions_included (onlyFZ onlyFS : bool) (invoiceType : string) :
  shouldInclude (cliOptions onlyFZ onlyFS) invoiceType = true ↔
    invoiceType = "FZ" ∨ invoiceType = "FS" ∨
    (invoiceType = "KFZ" ∧ onlyFS = false) ∨
    (invoiceType = "KFS" ∧ onlyFZ = false).
Proof.
  unfold shouldInclude.
  rewrite !orb_true_iff, !andb_true_iff, !String.eqb_eq.
  destruct onlyFZ, onlyFS; cbn [cliOptions DefaultParseOptions IncludeFZ IncludeFS];
    (split;
     [intros [[H|[H H']]|[H|[H H']]]|intros [H|[H|[[H H']|[H H']]]]];
     try discriminate; auto 8).
Qed.

(** ** The section splitter, continued *)

Lemma Index_not_occurs (s sep : string) :
  ¬ occurs sep s → strings.Index s sep = None.
Proof.
  intros Hno. destruct (strings.Index s sep) as [m|] eqn:Hidx; [|done].
  destruct Hno. apply Index_Some in Hidx as (before & after & [Heq _] & _).
  by exists before, after.
Qed.

Lemma Split_not_occurs (s sep : string) :
  ¬ occurs sep s → strings.Split s sep = [s].
Proof.
  intros Hno%Index_not_occurs. unfold strings.Split.
  destruct (String.length s); cbn [strings.genSplit]; [done|]. by rewrite Hno.
Qed.

(** X19: a text without [NAGLOWEK] marker has no section: all of it is
    preamble, where the info line is looked for. *)
Theorem ParseSections_without_header (input : string) :
  ¬ occurs headerTag input →
  Sections (ParseSections input) = [] ∧
  preambleInfo input (Info (ParseSections input)).
Proof.
  intros Hno%Split_not_occurs. unfold ParseSections. rewrite Hno.
  split; [done|]. apply ParseSections_info.
Qed.

(** *** [TrimSpace] leaves nothing to trim *)

Lemma trimLeft_length (l : list ascii) :
  length (strings.trimLeft l) ≤ length l.
Proof.
  remember (length l) as n eqn:Hn. revert l Hn.
  induction n as [n IH] using lt_wf_ind. intros l ->.
  destruct l as [|c0 s1]; [done|]. cbn [strings.trimLeft].
  destruct (strings.asciiSpace c0).
  { etransitivity; [eapply IH; [|done]|]; cbn; lia. }
  destruct s1 as [|c1 s2]; [done|].
  destruct (strings.space2 c0 c1).
  { etransitivity; [eapply IH; [|done]|]; cbn; lia. }
  destruct s2 as [|c2 s3]; [done|].
  destruct (strings.space3 c0 c1 c2); [|done].
  etransitivity; [eapply IH; [|done]|]; cbn; lia.
Qed.

Lemma trimLeft_idem (l : list ascii) :
  strings.trimLeft (strings.trimLeft l) = strings.trimLeft l.
Proof.
  remember (length l) as n eqn:Hn. revert l Hn.
  induction n as [n IH] using lt_wf_ind. intros l ->.
  destruct l as [|c0 s1]; [done|]. cbn [strings.trimLeft].
  destruct (strings.asciiSpace c0) eqn:H0.
  { eapply IH; [|done]. cbn; lia. }
  destruct s1 as [|c1 s2]. { cbn [strings.trimLeft]. by rewrite H0. }
  destruct (strings.space2 c0 c1) eqn:H1.
  { eapply IH; [|done]. cbn; lia. }
  destruct s2 as [|c2 s3]. { cbn [strings.trimLeft]. by rewrite H0, H1. }
  destruct (strings.space3 c0 c1 c2) eqn:H2.
  { eapply IH; [|done]. cbn; lia. }
  cbn [strings.trimLeft]. by rewrite H0, H1, H2.
Qed.

(** What cannot be trimmed on the left stays so when cut on the right. *)
Lemma trimLeft_prefix (l m : list ascii) :
  strings.trimLeft (l ++ m) = l ++ m → strings.trimLeft l = l.
Proof.
  assert (∀ (c : ascii) (k k' : list ascii),
            strings.trimLeft k = c :: k' ++ k → False) as Habsurd.
  { intros c k k' Heq. pose proof (trimLeft_length k) as Hlen.
    rewrite Heq in Hlen. cbn [length] in Hlen. rewrite length_app in Hlen.
    lia. }
  destruct l as [|c0 [|c1 [|c2 l]]]; [done|..];
    cbn [app strings.trimLeft].
  - destruct (strings.asciiSpace c0); [|done].
    intros Heq. by destruct (Habsurd c0 m []).
  - destruct (strings.asciiSpace c0).
    { intros Heq. by destruct (Habsurd c0 (c1 :: m) []). }
    destruct (strings.space2 c0 c1); [|done].
    intros Heq. by destruct (Habsurd c0 m [c1]).
  - destruct (strings.asciiSpace c0).
    { intros Heq. by destruct (Habsurd c0 (c1 :: c2 :: l ++ m) []). }
    destruct (strings.space2 c0 c1).
    { intros Heq. by destruct (Habsurd c0 (c2 :: l ++ m) [c1]). }
    destruct (strings.space3 c0 c1 c2); [|done].
    intros Heq. by destruct (Habsurd c0 (l ++ m) [c1; c2]).
Qed.

Lemma trimRightRev_suffix (r : list ascii) :
  ∃ k, r = k ++ strings.trimRightRev r.
Proof.
  remember (length r) as n eqn:Hn. revert r Hn.
  induction n as [n IH] using lt_wf_ind. intros r ->.
  destruct r as [|c0 r1]; [by exists []|]. cbn [strings.trimRightRev].
  destruct (strings.asciiSpace c0).
  { destruct (IH (length r1) ltac:(cbn; lia) r1 eq_refl) as [k Hk].
    exists (c0 :: k). cbn [app]. by rewrite <- Hk. }
  destruct r1 as [|c1 r2]; [by exists []|].
  destruct (strings.space2 c1 c0).
  { destruct (IH (length r2) ltac:(cbn; lia) r2 eq_refl) as [k Hk].
    exists (c0 :: c1 :: k). cbn [app]. by rewrite <- Hk. }
  destruct r2 as [|c2 r3]; [by exists []|].
  destruct (strings.space3 c2 c1 c0); [|by exists []].
  destruct (IH (length r3) ltac:(cbn; lia) r3 eq_refl) as [k Hk].
  exists (c0 :: c1 :: c2 :: k). cbn [app]. by rewrite <- Hk.
Qed.

Lemma trimRightRev_idem (r : list ascii) :
  strings.trimRightRev (strings.trimRightRev r) = strings.trimRightRev r.
Proof.
  remember (length r) as n eqn:Hn. revert r Hn.
  induction n as [n IH] using lt_wf_ind. intros r ->.
  destruct r as [|c0 r1]; [done|]. cbn [strings.trimRightRev].
  destruct (strings.asciiSpace c0) eqn:H0.
  { eapply IH; [|done]. cbn; lia. }
  destruct r1 as [|c1 r2]. { cbn [strings.trimRightRev]. by rewrite H0. }
  destruct (strings.space2 c1 c0) eqn:H1.
  { eapply IH; [|done]. cbn; lia. }
  destruct r2 as [|c2 r3]. { cbn [strings.trimRightRev]. by rewrite H0, H1. }
  destruct (strings.space3 c2 c1 c0) eqn:H2.
  { eapply IH; [|done]. cbn; lia. }
  cbn [strings.trimRightRev]. by rewrite H0, H1, H2.
Qed.

Lemma TrimSpace_idem (s : string) :
  strings.TrimSpace (strings.TrimSpace s) = strings.TrimSpace s.
Proof.
  unfold strings.TrimSpace. rewrite String.list_ascii_of_string_of_list_ascii.
  set (l1 := strings.trimLeft (String.list_ascii_of_string s)).
  destruct (trimRightRev_suffix (rev l1)) as [k Hk].
  assert (l1 = rev (strings.trimRightRev (rev l1)) ++ rev k) as Hl1.
  { by rewrite <- rev_app_distr, <- Hk, rev_involutive. }
  assert (strings.trimLeft (rev (strings.trimRightRev (rev l1)))
          = rev (strings.trimRightRev (rev l1))) as ->.
  { eapply trimLeft_prefix. rewrite <- Hl1. apply trimLeft_idem. }
  by rewrite rev_involutive, trimRightRev_idem.
Qed.

Lemma foldl_appendSection_Forall (P : Section_ → Prop)
    (blocks : list string) (sections : list Section_) :
  (∀ header content,
     P {| Header := strings.TrimSpace header;
          Content := strings.TrimSpace content |}) →
  Forall P sections → Forall P (foldl appendSection sections blocks).
Proof.
  intros HP. revert sections.
  induction blocks as [|block blocks IH]; intros sections Hall; [done|].
  cbn [foldl]. apply IH. unfold appendSection.
  destruct (strings.Index block contentTag); [|done].
  apply Forall_app. split; [done|]. constructor; [apply HP|constructor].
Qed.

(** X20: what [ParseSections] returns is trimmed: another [TrimSpace]
    changes neither the info line nor the header or the content of a
    section, so the [TrimSpace] of [ParseEPPFromString] on the header of a
    section is the identity. *)
Theorem ParseSections_trimmed (input : string) :
  strings.TrimSpace (Info (ParseSections input)) = Info (ParseSections input) ∧
  Forall (λ section,
            strings.TrimSpace (Header section) = Header section ∧
            strings.TrimSpace (Content section) = Content section)
         (Sections (ParseSections input)).
Proof.
  unfold ParseSections. cbn [Info Sections]. split.
  - destruct (strings.Split input headerTag) as [|preamble blocks]; [done|].
    destruct (strings.Index preamble infoTag); [|done]. apply TrimSpace_idem.
  - apply foldl_appendSection_Forall; [|constructor].
    intros header content. cbn [Header Content]. split; apply TrimSpace_idem.
Qed.

(** *** Documents written marker by marker *)

Lemma append_empty_r (s : string) : s +:+ "" = s.
Proof. induction s as [|c s IH]; [done|]. by rewrite append_cons, IH. Qed.

Lemma slice_from_length (a b : string) :
  strings.slice_from (a +:+ b) (String.length a) = b.
Proof.
  rewrite <- (Nat.add_0_r (String.length a)).
  by rewrite slice_from_append, slice_from_zero.
Qed.

(** No occurrence of a marker starts within a text without bracket. *)
Lemma Index_noBracket (p b rest : string) :
  noBracket b = true →
  strings.Index (b +:+ rest) (String "[" p) =
    (λ n, String.length b + n) <$> strings.Index rest (String "[" p).
Proof.
  induction b as [|c b IH]; intros Hb.
  { change ("" +:+ rest) with rest. by destruct (strings.Index rest _). }
  cbn [noBracket] in Hb. apply andb_prop in Hb as [Hc Hb].
  rewrite append_cons. cbn [strings.Index strings.HasPrefix].
  unfold byte_eqb in *. rewrite Ascii.eqb_sym.
  apply negb_true_iff in Hc. rewrite Hc. cbn [andb].
  rewrite IH by done. by destruct (strings.Index rest _).
Qed.

Lemma Index_noBracket_header (b rest : string) :
  noBracket b = true →
  strings.Index (b +:+ rest) headerTag =
    (λ n, String.length b + n) <$> strings.Index rest headerTag.
Proof. apply Index_noBracket. Qed.

Lemma Index_noBracket_content (b rest : string) :
  noBracket b = true →
  strings.Index (b +:+ rest) contentTag =
    (λ n, String.length b + n) <$> strings.Index rest contentTag.
Proof. apply Index_noBracket. Qed.

Lemma Index_past_contentTag (rest : string) :
  strings.Index (contentTag +:+ rest) headerTag =
    (λ n, String.length contentTag + n) <$> strings.Index rest headerTag.
Proof.
  change (strings.Index (contentTag +:+ rest) headerTag)
    with (Nat.iter 11 (fmap (M:=option) S) (strings.Index rest headerTag)).
  by destruct (strings.Index rest headerTag).
Qed.

Lemma Index_past_infoTag (rest : string) :
  strings.Index (infoTag +:+ rest) headerTag =
    (λ n, String.length infoTag + n) <$> strings.Index rest headerTag.
Proof.
  change (strings.Index (infoTag +:+ rest) headerTag)
    with (Nat.iter 6 (fmap (M:=option) S) (strings.Index rest headerTag)).
  by destruct (strings.Index rest headerTag).
Qed.

(** No header marker starts within the text of a section. *)
Lemma Index_past_section (section : Section_) (rest : string) :
  noBracket (Header section) = true → noBracket (Content section) = true →
  strings.Index (renderSection section +:+ rest) headerTag =
    (λ n, String.length (renderSection section) + n)
      <$> strings.Index rest headerTag.
Proof.
  intros Hh Hc. unfold renderSection.
  rewrite !append_assoc, Index_noBracket_header, Index_past_contentTag,
    Index_noBracket_header by done.
  rewrite !length_append.
  destruct (strings.Index rest headerTag); cbn [fmap option_fmap option_map];
    [|done].
  f_equal. lia.
Qed.

Lemma genSplit_renderSections (sections : list Section_) (b : string)
    (n : nat) :
  (∀ rest, strings.Index (b +:+ rest) headerTag =
             (λ n, String.length b + n) <$> strings.Index rest headerTag) →
  Forall (λ section, noBracket (Header section) = true ∧
                     noBracket (Content section) = true) sections →
  String.length (b +:+ renderSections sections) ≤ n →
  strings.genSplit n (b +:+ renderSections sections) headerTag =
    b :: (renderSection <$> sections).
Proof.
  revert b n. induction sections as [|section sections IH];
    intros b n Hb Hall Hlen; cbn [renderSections fmap list_fmap].
  - assert (strings.Index (b +:+ "") headerTag = None) as Hidx
      by (by rewrite Hb).
    rewrite append_empty_r in *.
    destruct n; cbn [strings.genSplit]; [done|]. by rewrite Hidx.
  - cbn [renderSections] in Hlen. rewrite !length_append in Hlen.
    destruct n as [|n]; [cbn in Hlen; lia|].
    cbn [strings.genSplit]. rewrite Hb.
    change (strings.Index (headerTag +:+ _) headerTag) with (Some 0).
    cbn [fmap option_fmap option_map]. rewrite Nat.add_0_r.
    rewrite slice_to_append, slice_from_append, slice_from_length.
    inversion Hall as [|? ? [Hh Hc] Hrest]; subst. f_equal.
    apply IH; [by intros rest; apply Index_past_section|done|].
    rewrite length_append. cbn in Hlen. lia.
Qed.

Lemma foldl_appendSection_render (sections acc : list Section_) :
  Forall (λ section, noBracket (Header section) = true ∧
                     noBracket (Content section) = true) sections →
  foldl appendSection acc (renderSection <$> sections) =
    acc ++ (trimSection <$> sections).
Proof.
  intros Hall. revert acc.
  induction Hall as [|section sections [Hh Hc] _ IH]; intros acc;
    cbn [fmap list_fmap foldl]; [by rewrite app_nil_r|].
  assert (appendSection acc (renderSection section)
          = acc ++ [trimSection section]) as ->.
  { unfold appendSection, renderSection.
    rewrite Index_noBracket_content by done.
    change (strings.Index (contentTag +:+ _) contentTag) with (Some 0).
    cbn [fmap option_fmap option_map]. rewrite Nat.add_0_r.
    by rewrite slice_to_append, slice_from_append, slice_from_length. }
  by rewrite IH, <- app_assoc.
Qed.

(** The sections of a text written marker by marker. *)
Lemma ParseSections_rendered (info : string)
    (sections : list Section_) :
  noBracket info = true →
  Forall (λ section, noBracket (Header section) = true ∧
                     noBracket (Content section) = true) sections →
  ParseSections (renderDocument info sections) =
    {| Info := strings.TrimSpace info;
       Sections := trimSection <$> sections |}.
Proof.
  intros Hinfo Hall. unfold ParseSections, strings.Split, renderDocument.
  rewrite <- append_assoc.
  rewrite genSplit_renderSections; [|..|done]; [|
    intros rest;
    by rewrite append_assoc, Index_past_infoTag, Index_noBracket_header,
      length_append by done; destruct (strings.Index rest headerTag) |done].
  cbn [tail]. rewrite foldl_appendSection_render by done. cbn [app].
  change (strings.Index (infoTag +:+ info) infoTag) with (Some 0).
  cbn [Nat.add]. by rewrite slice_from_length.
Qed.

(** X21: a text written marker by marker is read back: on [INFO], an
    info line, and for every section [NAGLOWEK], a header, [ZAWARTOSC] and
    a content, none of these texts holding an opening bracket,
    [ParseSections] returns the info line and the sections, each text
    trimmed, in their order. *)
Theorem ParseSections_renderDocument (info : string)
    (sections : list Section_) :
  noBracket info = true →
  Forall (λ section, noBracket (Header section) = true ∧
                     noBracket (Content section) = true) sections →
  ParseSections (renderDocument info sections) =
    {| Info := strings.TrimSpace info;
       Sections := trimSection <$> sections |}.
Proof. apply ParseSections_rendered. Qed.

(** ** The date parser, continued *)

Lemma digit_val_inj (c c' : ascii) :
  is_digit c = true → is_digit c' = true → digit_val c = digit_val c' →
  c = c'.
Proof.
  intros H%is_digit_range H'%is_digit_range Heq. unfold digit_val in Heq.
  rewrite <- (ascii_nat_embedding c), <- (ascii_nat_embedding c').
  f_equal. lia.
Qed.

Lemma digitChar_digit_val (c : ascii) :
  is_digit c = true → digitChar (Z.to_nat (digit_val c)) = c.
Proof.
  intros H%is_digit_range. unfold digitChar, digit_val.
  rewrite <- (ascii_nat_embedding c) at 2. f_equal. lia.
Qed.

(** The fourteen bytes of a timestamp and its fields. *)
Lemma validTimestamp_Some (dateStr : string) (t : time.Time) :
  validTimestamp dateStr = Some t →
  ∃ y1 y2 y3 y4 m1 m2 d1 d2 h1 h2 n1 n2 s1 s2,
    dateStr =
      String.string_of_list_ascii
        [y1; y2; y3; y4; m1; m2; d1; d2; h1; h2; n1; n2; s1; s2] ∧
    Forall (λ c, is_digit c = true)
      [y1; y2; y3; y4; m1; m2; d1; d2; h1; h2; n1; n2; s1; s2] ∧
    t = time.mkTime (number [y1; y2; y3; y4]) (number [m1; m2])
          (number [d1; d2]) (number [h1; h2]) (number [n1; n2])
          (number [s1; s2]) 0.
Proof.
  intros Hv.
  do 14 (destruct dateStr as [|? dateStr]; [by cbv in Hv|]).
  destruct dateStr; [|by cbv in Hv].
  unfold validTimestamp in Hv. cbn [String.list_ascii_of_string] in Hv.
  destruct (forallb _ _) eqn:Hd; [|done].
  destruct (_ && _)%bool; [|done]. injection Hv as <-.
  do 14 eexists. split; [reflexivity|]. split; [|reflexivity].
  apply List.Forall_forall. by apply forallb_forall.
Qed.

(** X22: the date [ParseDate] returns is the zero time, which the query
    helpers take for a missing date, exactly when the text is no valid
    timestamp or is the timestamp of the zero time itself. *)
Theorem ParseDate_IsZero (dateStr : string) :
  time.IsZero (ParseDate dateStr) = true ↔
    validTimestamp dateStr = None ∨ dateStr = "00010101000000".
Proof.
  rewrite ParseDate_valid.
  destruct (validTimestamp dateStr) as [t|] eqn:Hv; cbn [default];
    [|by split; [left|]].
  split.
  2: { intros [?| ->]; [done|]. vm_compute in Hv. by injection Hv as <-. }
  intros Hz. right.
  apply validTimestamp_Some in Hv
    as (y1 & y2 & y3 & y4 & m1 & m2 & d1 & d2 & h1 & h2 & n1 & n2 & s1 & s2
        & -> & Hd & ->).
  unfold time.IsZero, time.eqb in Hz.
  cbn [time.Year time.Month time.Day time.Hour time.Minute time.Second
       time.Nanosecond time.zero] in Hz.
  repeat (apply andb_prop in Hz as [Hz ?]).
  repeat match goal with
         | H : (_ =? _)%Z = true |- _ => apply Z.eqb_eq in H
         end.
  unfold number, id in *.
  cbn [foldl time.Year time.Month time.Day time.Hour time.Minute time.Second
       time.Nanosecond] in *.
  repeat match goal with
         | H : Forall _ (_ :: _) |- _ =>
             let Hc := fresh "Hc" in
             apply Forall_cons in H as [Hc H];
             pose proof (digit_val_range _ Hc)
         end.
  cbn [String.string_of_list_ascii].
  repeat f_equal;
    (apply digit_val_inj; [assumption|reflexivity|]);
    match goal with
    | |- _ = digit_val ?c =>
        let v := eval vm_compute in (digit_val c) in
        change (digit_val c) with v
    end; lia.
Qed.

Lemma forallb_digits (f : Z → bool) (d : Z) :
  forallb f [0; 1; 2; 3; 4; 5; 6; 7; 8; 9]%Z = true → (0 ≤ d ≤ 9)%Z →
  f d = true.
Proof.
  intros Hall Hd. eapply forallb_forall in Hall; [done|]. cbn. lia.
Qed.

(** [appendInt] on the numbers of four and of two digits, digit by
    digit. *)
Lemma appendInt_four (d1 d2 d3 d4 : Z) :
  (0 ≤ d1 ≤ 9 → 0 ≤ d2 ≤ 9 → 0 ≤ d3 ≤ 9 → 0 ≤ d4 ≤ 9 →
   time.appendInt ((((0 * 10 + d1) * 10 + d2) * 10 + d3) * 10 + d4) 4 =
     String (digitChar (Z.to_nat d1)) (String (digitChar (Z.to_nat d2))
       (String (digitChar (Z.to_nat d3))
          (String (digitChar (Z.to_nat d4)) EmptyString))))%Z.
Proof.
  intros H1 H2 H3 H4.
  assert (forallb (λ d1, forallb (λ d2, forallb (λ d3, forallb (λ d4,
            String.eqb
              (time.appendInt
                 ((((0 * 10 + d1) * 10 + d2) * 10 + d3) * 10 + d4) 4)
              (String (digitChar (Z.to_nat d1))
                 (String (digitChar (Z.to_nat d2))
                    (String (digitChar (Z.to_nat d3))
                       (String (digitChar (Z.to_nat d4)) EmptyString)))))
            [0; 1; 2; 3; 4; 5; 6; 7; 8; 9]) [0; 1; 2; 3; 4; 5; 6; 7; 8; 9])
            [0; 1; 2; 3; 4; 5; 6; 7; 8; 9]) [0; 1; 2; 3; 4; 5; 6; 7; 8; 9]
          = true)%Z as Hall
    by (vm_compute; reflexivity).
  pose proof (forallb_digits _ d1 Hall H1) as Hall1. cbv beta in Hall1.
  pose proof (forallb_digits _ d2 Hall1 H2) as Hall2. cbv beta in Hall2.
  pose proof (forallb_digits _ d3 Hall2 H3) as Hall3. cbv beta in Hall3.
  pose proof (forallb_digits _ d4 Hall3 H4) as Hall4. cbv beta in Hall4.
  by apply String.eqb_eq in Hall4.
Qed.

Lemma appendInt_two (d1 d2 : Z) :
  (0 ≤ d1 ≤ 9 → 0 ≤ d2 ≤ 9 →
   time.appendInt ((0 * 10 + d1) * 10 + d2) 2 =
     String (digitChar (Z.to_nat d1))
       (String (digitChar (Z.to_nat d2)) EmptyString))%Z.
Proof.
  intros H1 H2.
  assert (forallb (λ d1, forallb (λ d2,
            String.eqb
              (time.appendInt ((0 * 10 + d1) * 10 + d2) 2)
              (String (digitChar (Z.to_nat d1))
                 (String (digitChar (Z.to_nat d2)) EmptyString)))
            [0; 1; 2; 3; 4; 5; 6; 7; 8; 9]) [0; 1; 2; 3; 4; 5; 6; 7; 8; 9]
          = true)%Z as Hall
    by (vm_compute; reflexivity).
  pose proof (forallb_digits _ d1 Hall H1) as Hall1. cbv beta in Hall1.
  pose proof (forallb_digits _ d2 Hall1 H2) as Hall2. cbv beta in Hall2.
  by apply String.eqb_eq in Hall2.
Qed.

(** X23: the month key of a date that [ParseDate] read from a timestamp
    is the timestamp's first four bytes, a hyphen, and its next two bytes:
    [GroupInvoicesByMonth] files an invoice under the year and month its
    timestamp spells. *)
Theorem ParseDate_month_key (dateStr : string) :
  time.IsZero (ParseDate dateStr) = false →
  time.Format_2006_01 (ParseDate dateStr) =
    strings.slice_to dateStr 4 +:+ "-" +:+
    strings.slice_to (strings.slice_from dateStr 4) 2.
Proof.
  rewrite ParseDate_valid.
  destruct (validTimestamp dateStr) as [t|] eqn:Hv; cbn [default];
    [|intros Hz; by vm_compute in Hz].
  intros _. unfold id.
  apply validTimestamp_Some in Hv
    as (y1 & y2 & y3 & y4 & m1 & m2 & d1 & d2 & h1 & h2 & n1 & n2 & s1 & s2
        & -> & Hd & ->).
  unfold time.Format_2006_01.
  cbn [time.Year time.Month String.string_of_list_ascii strings.slice_to
       strings.slice_from].
  repeat match goal with
         | H : Forall _ (_ :: _) |- _ =>
             let Hc := fresh "Hc" in
             apply Forall_cons in H as [Hc H];
             pose proof (digit_val_range _ Hc)
         end.
  unfold number. cbn [foldl].
  rewrite appendInt_four, appendInt_two by done.
  by rewrite !digitChar_digit_val.
Qed.

(** ** The tokenizer on rows of plain fields *)

Lemma parseRecord_cons (more : list string) (c : ascii) (rest : string)
    (st : csv.fieldState) (dst : list string) :
  csv.parseRecord more (String c rest) st dst =
    match csv.onByte st c (csv.isEmpty rest) with
    | csv.Next st' None => csv.parseRecord more rest st' dst
    | csv.Next st' (Some field) => csv.parseRecord more rest st' (dst ++ [field])
    | csv.Stop field => inr (dst ++ [field])
    | csv.Abort e => inl e
    end.
Proof. destruct more; reflexivity. Qed.

Lemma parseRecord_end (more : list string) (dst : list string) :
  csv.parseRecord more "" csv.FieldStart dst = inr (dst ++ [""]) ∧
  ∀ field, csv.parseRecord more "" (csv.InBare field) dst = inr (dst ++ [field]).
Proof. by destruct more. Qed.

Lemma bareByte_plain (field : string) (c : ascii) (last : bool) :
  plainByte c = true →
  csv.bareByte field c last = csv.Next (csv.InBare (csv.push field c)) None.
Proof.
  unfold plainByte, csv.bareByte. intros Hc%negb_true_iff.
  apply orb_false_elim in Hc as [[[-> ->]%orb_false_elim _]%orb_false_elim ->].
  done.
Qed.

Lemma plainByte_quote (c : ascii) : plainByte c = true → byte_eqb c quote = false.
Proof.
  unfold plainByte. intros Hc%negb_true_iff.
  by apply orb_false_elim in Hc as [[[_ ?]%orb_false_elim _]%orb_false_elim _].
Qed.

(** The bytes of a plain field are added to the field under way. *)
Lemma parseRecord_bare (more : list string) (field tail acc : string)
    (dst : list string) :
  plainField field = true →
  csv.parseRecord more (field +:+ tail) (csv.InBare acc) dst =
    csv.parseRecord more tail (csv.InBare (acc +:+ field)) dst.
Proof.
  revert acc. induction field as [|c field IH]; intros acc Hf.
  { by rewrite append_empty_r. }
  cbn [plainField] in Hf. apply andb_prop in Hf as [Hc Hf].
  rewrite append_cons, parseRecord_cons. cbn [csv.onByte].
  rewrite bareByte_plain by done. rewrite IH by done.
  unfold csv.push. by rewrite append_assoc.
Qed.

(** A plain field at the start of a field, followed by the comma, by the
    end of the input or by the end of the line. *)
Lemma parseRecord_field (more : list string) (field : string)
    (dst : list string) :
  plainField field = true →
  (∀ tail, csv.parseRecord more (field +:+ String comma tail) csv.FieldStart dst
           = csv.parseRecord more tail csv.FieldStart (dst ++ [field])) ∧
  csv.parseRecord more field csv.FieldStart dst = inr (dst ++ [field]) ∧
  csv.parseRecord more (field +:+ newline) csv.FieldStart dst
    = inr (dst ++ [field]).
Proof.
  intros Hf. destruct field as [|c field].
  { split; [|split]; [intros tail|..];
      by destruct more. }
  cbn [plainField] in Hf. apply andb_prop in Hf as [Hc Hf].
  assert (∀ tail,
            csv.parseRecord more (String c field +:+ tail) csv.FieldStart dst
            = csv.parseRecord more tail (csv.InBare (String c field)) dst)
    as Hrun.
  { intros tail. rewrite append_cons, parseRecord_cons. cbn [csv.onByte].
    rewrite (plainByte_quote c Hc), bareByte_plain by done.
    by rewrite parseRecord_bare. }
  split; [|split].
  - intros tail. rewrite Hrun. by destruct more.
  - rewrite <- (append_empty_r (String c field)) at 1. rewrite Hrun.
    apply parseRecord_end.
  - rewrite Hrun. by destruct more.
Qed.

Lemma parseRecord_row (more : list string) (fields : list string)
    (field : string) (dst : list string) :
  Forall (λ field, plainField field = true) (field :: fields) →
  csv.parseRecord more (strings.Join (field :: fields) ",") csv.FieldStart dst
    = inr (dst ++ field :: fields) ∧
  csv.parseRecord more (strings.Join (field :: fields) "," +:+ newline)
      csv.FieldStart dst
    = inr (dst ++ field :: fields).
Proof.
  revert field dst. induction fields as [|next fields IH];
    intros field dst [Hf Hall]%Forall_cons.
  { split; by apply parseRecord_field. }
  change (strings.Join (field :: next :: fields) ",")
    with (field +:+ String comma (strings.Join (next :: fields) ",")).
  destruct (parseRecord_field more field dst Hf) as (Hcomma & _ & _).
  destruct (IH next (dst ++ [field]) Hall) as [Hend Hline].
  rewrite append_assoc, append_cons, !Hcomma, <- !app_assoc in *.
  by split.
Qed.

Lemma list_ascii_append (a b : string) :
  String.list_ascii_of_string (a +:+ b) =
    String.list_ascii_of_string a ++ String.list_ascii_of_string b.
Proof.
  induction a as [|c a IH]; [done|]. rewrite append_cons. cbn. by f_equal.
Qed.

Lemma plainField_bytes (field : string) :
  plainField field = true →
  Forall (λ c, plainByte c = true ∨ c = comma)
    (String.list_ascii_of_string field).
Proof.
  induction field as [|c field IH]; cbn; [constructor|].
  intros [Hc Hf]%andb_prop. constructor; [by left|by apply IH].
Qed.

Lemma Join_bytes (fields : list string) :
  Forall (λ field, plainField field = true) fields →
  Forall (λ c, plainByte c = true ∨ c = comma)
    (String.list_ascii_of_string (strings.Join fields ",")).
Proof.
  induction fields as [|field fields IH]; [constructor|].
  intros [Hf Hall]%Forall_cons. destruct fields as [|next fields].
  { by apply plainField_bytes. }
  change (strings.Join (field :: next :: fields) ",")
    with (field +:+ String comma (strings.Join (next :: fields) ",")).
  rewrite list_ascii_append. apply Forall_app. split.
  { by apply plainField_bytes. }
  constructor; [by right|by apply IH].
Qed.

Lemma lineByte (c : ascii) :
  plainByte c = true ∨ c = comma →
  byte_eqb c LF = false ∧ byte_eqb c CR = false.
Proof.
  intros [Hc%negb_true_iff| ->]; [|done]. unfold plainByte in Hc.
  by apply orb_false_elim in Hc as [[_ ?]%orb_false_elim ?].
Qed.

Lemma readSlices_single (l : list ascii) :
  l ≠ [] → Forall (λ c, plainByte c = true ∨ c = comma) l →
  csv.readSlices l = [l].
Proof.
  induction l as [|c l IH]; [done|]. intros _ [Hc%lineByte Hl]%Forall_cons.
  cbn [csv.readSlices]. rewrite (proj1 Hc).
  destruct l as [|c' l]; [done|]. by rewrite IH.
Qed.

Lemma readSlices_line (l r : list ascii) :
  Forall (λ c, plainByte c = true ∨ c = comma) l →
  csv.readSlices (l ++ LF :: r) = (l ++ [LF]) :: csv.readSlices r.
Proof.
  induction l as [|c l IH]; [done|]. intros [Hc%lineByte Hl]%Forall_cons.
  cbn [app csv.readSlices]. rewrite (proj1 Hc). by rewrite IH.
Qed.

Lemma normalizeLine_plain (l : list ascii) :
  Forall (λ c, plainByte c = true ∨ c = comma) l →
  csv.normalizeLine l = l ∧ csv.normalizeLine (l ++ [LF]) = l ++ [LF].
Proof.
  intros Hl%Forall_rev. unfold csv.normalizeLine. rewrite rev_unit.
  change (byte_eqb LF LF) with true. cbv iota.
  destruct (rev l) as [|c r]; [done|].
  apply Forall_cons in Hl as [[-> ->]%lineByte _]. done.
Qed.

Lemma lengthNL_plain (line : string) :
  Forall (λ c, plainByte c = true ∨ c = comma)
    (String.list_ascii_of_string line) →
  csv.lengthNL line = 0 ∧ csv.lengthNL (line +:+ newline) = 1.
Proof.
  intros Hl%Forall_rev. unfold csv.lengthNL.
  rewrite list_ascii_append. cbn [String.list_ascii_of_string newline].
  rewrite rev_unit. split; [|done].
  destruct (rev _) as [|c r]; [done|].
  by apply Forall_cons in Hl as [[-> _]%lineByte _].
Qed.

(** The first row of a text, read as a record. *)
Lemma ParseCSVLine_row (fields : list string) (rest : string) :
  Forall (λ field, plainField field = true) fields →
  strings.Join fields "," ≠ "" →
  ParseCSVLine (strings.Join fields ",") = Returned fields ∧
  ParseCSVLine (strings.Join fields "," +:+ newline +:+ rest)
    = Returned fields.
Proof.
  intros Hall Hne. destruct fields as [|field fields]; [done|].
  pose proof (Join_bytes _ Hall) as Hbytes.
  set (line := strings.Join (field :: fields) ",") in *.
  destruct (parseRecord_row [] fields field [] Hall) as [Hend _].
  destruct (lengthNL_plain line Hbytes) as [HNL HNL'].
  destruct (normalizeLine_plain _ Hbytes) as [Hnorm Hnorm'].
  assert (String.length line ≠ 0) as Hlen by (by destruct line).
  unfold ParseCSVLine, csv.Read, csv.readLines. split.
  - rewrite readSlices_single by (done || by destruct line).
    cbn [fmap list_fmap compose csv.skipEmptyLines].
    rewrite Hnorm, String.string_of_list_ascii_of_string, HNL.
    destruct (Nat.eqb_spec (String.length line) 0); [done|].
    fold line in Hend. by rewrite Hend.
  - rewrite list_ascii_append.
    change (String.list_ascii_of_string (newline +:+ rest))
      with (LF :: String.list_ascii_of_string rest).
    rewrite readSlices_line by done.
    cbn [fmap list_fmap compose csv.skipEmptyLines].
    rewrite Hnorm'.
    replace (String.string_of_list_ascii
               (String.list_ascii_of_string line ++ [LF]))
      with (line +:+ newline)
      by (by rewrite <- (String.string_of_list_ascii_of_string
                           (line +:+ newline)), list_ascii_append).
    rewrite HNL', length_append.
    destruct (Nat.eqb_spec (String.length line + String.length newline) 1)
      as [Hone|_];
      [change (String.length newline) with 1 in Hone; lia|].
    destruct (parseRecord_row
                (String.string_of_list_ascii ∘ csv.normalizeLine
                   <$> csv.readSlices (String.list_ascii_of_string rest))
                fields field [] Hall) as [_ Hline].
    fold line in Hline. by rewrite Hline.
Qed.

(** X24: a row of plain fields is read back, and it is all that is read:
    on the fields joined by commas, [ParseCSVLine] returns the fields,
    whether the text ends there or goes on after a line feed; the rows
    that follow are not looked at. *)
Theorem ParseCSVLine_first_row (fields : list string) (rest : string) :
  Forall (λ field, plainField field = true) fields →
  strings.Join fields "," ≠ "" →
  ParseCSVLine (strings.Join fields ",") = Returned fields ∧
  ParseCSVLine (strings.Join fields "," +:+ newline +:+ rest)
    = Returned fields.
Proof. apply ParseCSVLine_row. Qed.

(** ** The mappers and the assembler, continued *)

Section Assembler.

Variable strconv_ParseFloat : string → option float.

#[local] Arguments ParseHeader : simpl never.
#[local] Arguments ParseItem : simpl never.
#[local] Arguments ParseCSVLine : simpl never.
#[local] Arguments shouldInclude : simpl never.
#[local] Arguments strings.TrimSpace : simpl never.

#[local] Abbreviation ParseFloat := (ParseFloat strconv_ParseFloat).
#[local] Abbreviation ParseHeader := (ParseHeader strconv_ParseFloat).
#[local] Abbreviation ParseItem := (ParseItem strconv_ParseFloat).
#[local] Abbreviation headerTable := (headerTable strconv_ParseFloat).
#[local] Abbreviation itemTable := (itemTable strconv_ParseFloat).
#[local] Abbreviation processSection := (processSection strconv_ParseFloat).
#[local] Abbreviation sectionLoop := (sectionLoop strconv_ParseFloat).
#[local] Abbreviation ParseEPPFromString := (ParseEPPFromString strconv_ParseFloat).
#[local] Abbreviation contributes := (contributes strconv_ParseFloat).
#[local] Abbreviation built := (built strconv_ParseFloat).

Lemma ParseCSVLine_cases (line : string) :
  (∃ fields, ParseCSVLine line = Returned fields) ∨
  (∃ c, ParseCSVLine line = Failed (CSVReadError c)).
Proof. unfold ParseCSVLine. destruct (csv.Read line); eauto. Qed.

Lemma parseInfo_Returned (fields : list string) :
  ∃ infoMap, parseInfo fields = Returned infoMap.
Proof. do 6 (destruct fields as [|? fields]; [by eexists|]). by eexists. Qed.

Lemma contributes_built (section : Section_) (invoice : Invoice) :
  contributes section invoice ↔ built section invoice.
Proof.
  split.
  - intros (fields & header & contentFields & item & Hf & Hh & Hc & Hi & ->).
    rewrite ParseHeader_eval in Hh. rewrite ParseItem_eval in Hi.
    destruct (Nat.eqb_spec (length fields) 19) as [|Hlen]; [done|].
    injection Hh as <-. injection Hi as <-.
    by exists fields, contentFields.
  - intros (fields & contentFields & Hf & Hlen & Hc & ->).
    exists fields, (headerTable fields), contentFields,
      (itemTable contentFields).
    rewrite ParseHeader_eval, ParseItem_eval.
    by destruct (Nat.eqb_spec (length fields) 19).
Qed.

Lemma built_functional (section : Section_) (invoice invoice' : Invoice) :
  built section invoice → built section invoice' → invoice = invoice'.
Proof.
  intros (f & c & Hf & _ & Hc & ->) (f' & c' & Hf' & _ & Hc' & ->).
  congruence.
Qed.

Lemma passesFilter_type (options : ParseOptions) (section : Section_)
    (fields : list string) :
  ParseCSVLine (strings.TrimSpace (Header section)) = Returned fields →
  passesFilter options section = true →
  shouldInclude options (stringAt fields 0) = true.
Proof.
  unfold passesFilter. intros ->.
  destruct (String.eqb _ ""); [done|]. by destruct fields.
Qed.

(** The turn of the loop, case by case. *)
Lemma processSection_eval (options : ParseOptions) (st : loopState)
    (section : Section_) :
  processSection options st section =
    if String.eqb (strings.TrimSpace (Header section)) "" then Returned st
    else
      match ParseCSVLine (strings.TrimSpace (Header section)) with
      | Returned fields =>
          if passesFilter options section then
            if length fields =? 19 then Panicked (IndexOutOfRange 19 19)
            else
              match ParseCSVLine (Content section) with
              | Returned contentFields =>
                  Returned
                    (mkLoopState
                       (set_Items [itemTable contentFields]
                          (headerTable fields))
                       (settled st))
              | Failed e => Failed (PhaseError ItemPhase e)
              | Panicked p => Panicked p
              end
          else Returned st
      | Failed e => Failed (PhaseError HeaderPhase e)
      | Panicked p => Panicked p
      end.
Proof.
  unfold processSection, passesFilter, settled.
  destruct (String.eqb (strings.TrimSpace (Header section)) ""); [done|].
  destruct (ParseCSVLine (strings.TrimSpace (Header section)))
    as [fields| |]; cbn; [|done..].
  destruct fields as [|invoiceType fields]; cbn; [done|].
  destruct (shouldInclude options invoiceType) eqn:Hinc; [|done].
  rewrite ParseHeader_eval. cbn [length Nat.eqb].
  destruct (Nat.eqb _ _); cbn; [done|].
  destruct (ParseCSVLine (Content section)) as [contentFields| |];
    cbn; [|done..].
  apply shouldInclude_nonempty in Hinc.
  apply String.eqb_neq in Hinc. rewrite Hinc. cbn.
  by rewrite ParseItem_eval.
Qed.

(** The invoices of a returned document, section by section. *)
Lemma invoices_built (content : string) (options : ParseOptions)
    (doc : EPPData) :
  ParseEPPFromString content options = Returned doc →
  Forall2 built
    (List.filter (passesFilter options) (Sections (ParseSections content)))
    (Invoices doc).
Proof.
  intros [Hall _]%ParseEPPFromString_Returned.
  eapply Forall2_impl; [exact Hall|]. intros ? ?. apply contributes_built.
Qed.

(** X9: in a returned document the invoices are, in the order of the
    sections, one per section that passes the type filter: the header
    table of the section's header line, holding exactly one item, the item
    table of the first record of the section's content. *)
Theorem returned_invoices_built (content : string) (options : ParseOptions)
    (doc : EPPData) :
  ParseEPPFromString content options = Returned doc →
  Forall2 built
    (List.filter (passesFilter options) (Sections (ParseSections content)))
    (Invoices doc).
Proof. apply invoices_built. Qed.

Lemma Forall2_filter_r {A B} (R : A → B → Prop) (f : A → bool)
    (l : list A) (k : list B) :
  Forall2 R (List.filter f l) k →
  Forall (λ y, ∃ x, In x l ∧ f x = true ∧ R x y) k.
Proof.
  intros Hall. apply List.Forall_forall. intros y Hy.
  apply list_elem_of_In, list_elem_of_lookup_1 in Hy as [i Hi].
  destruct (Forall2_lookup_r _ _ _ _ _ Hall Hi) as (x & Hx & HR).
  apply list_elem_of_lookup_2, list_elem_of_In, filter_In in Hx as [? ?].
  eauto.
Qed.

(** The types of the invoices of a returned document. *)
Lemma invoices_typed (content : string) (options : ParseOptions)
    (doc : EPPData) :
  ParseEPPFromString content options = Returned doc →
  Forall (λ invoice,
            Type_ invoice = "FZ" ∨ Type_ invoice = "FS" ∨
            (Type_ invoice = "KFZ" ∧ IncludeFZ options = true) ∨
            (Type_ invoice = "KFS" ∧ IncludeFS options = true))
         (Invoices doc).
Proof.
  intros Hall%invoices_built%Forall2_filter_r.
  eapply Forall_impl; [exact Hall|]. cbn.
  intros invoice (section & _ & Hpass & fields & c & Hf & _ & _ & ->).
  apply (shouldInclude_true strconv_ParseFloat).
  rewrite Type_set_Items. by eapply passesFilter_type.
Qed.

(** X10: every invoice of a returned document has one of the four types,
    "KFZ" only when [IncludeFZ] is set and "KFS" only when [IncludeFS] is
    set. *)
Theorem returned_invoice_types (content : string) (options : ParseOptions)
    (doc : EPPData) :
  ParseEPPFromString content options = Returned doc →
  Forall (λ invoice,
            Type_ invoice = "FZ" ∨ Type_ invoice = "FS" ∨
            (Type_ invoice = "KFZ" ∧ IncludeFZ options = true) ∨
            (Type_ invoice = "KFS" ∧ IncludeFS options = true))
         (Invoices doc).
Proof. apply invoices_typed. Qed.

(** X11: [ParseHeader] never assigns [DocumentNumber]: it is empty in
    every invoice of a returned document. *)
Theorem returned_invoices_no_document_number (content : string)
    (options : ParseOptions) (doc : EPPData) :
  ParseEPPFromString content options = Returned doc →
  Forall (λ invoice, DocumentNumber invoice = "") (Invoices doc).
Proof.
  intros Hall%invoices_built%Forall2_filter_r.
  eapply Forall_impl; [exact Hall|]. cbn.
  by intros invoice (section & _ & _ & fields & c & _ & _ & _ & ->).
Qed.

Lemma processSection_ready (options : ParseOptions) (st : loopState)
    (section : Section_) :
  (∃ st', processSection options st section = Returned st') ↔
  sectionReady options section.
Proof.
  rewrite processSection_eval. unfold sectionReady.
  destruct (String.eqb_spec (strings.TrimSpace (Header section)) "")
    as [Hline|Hline].
  { split; [by left|by eexists]. }
  destruct (ParseCSVLine (strings.TrimSpace (Header section)))
    as [fields|e|p] eqn:Hfields.
  2,3: split; [by intros [? ?]|by intros [?|(? & ? & _)]].
  destruct (passesFilter options section).
  2: { split; [|by eexists]. intros _. right. by exists fields. }
  destruct (Nat.eqb_spec (length fields) 19) as [Hlen|Hlen].
  { split; [by intros [? ?]|].
    intros [?|(? & [= <-] & Hready)]; [done|].
    by destruct (Hready eq_refl). }
  destruct (ParseCSVLine (Content section)) as [contentFields|e|p].
  - split; [|by eexists]. intros _. right. exists fields. eauto.
  - split; [by intros [? ?]|].
    intros [?|(? & _ & Hready)]; [done|].
    by destruct (Hready eq_refl) as (_ & ? & ?).
  - split; [by intros [? ?]|].
    intros [?|(? & _ & Hready)]; [done|].
    by destruct (Hready eq_refl) as (_ & ? & ?).
Qed.

Lemma sectionLoop_ready (options : ParseOptions) (sections : list Section_)
    (st : loopState) :
  (∃ st', sectionLoop options sections st = Returned st') ↔
  Forall (sectionReady options) sections.
Proof.
  revert st. induction sections as [|section sections IH]; intros st.
  { split; [constructor|by eexists]. }
  rewrite Forall_cons, <- (processSection_ready options st).
  cbn [sectionLoop].
  destruct (processSection options st section) as [st1|e|p]; cbn.
  - rewrite IH. split; [|by intros [_ ?]]. intros H. split; [by eexists|done].
  - split; [by intros [? ?]|by intros [[? ?] _]].
  - split; [by intros [? ?]|by intros [[? ?] _]].
Qed.

(** X12: [ParseEPPFromString] returns a document exactly when the info
    line tokenizes and every section is one the loop gets through: its
    trimmed header is empty, or tokenizes and, if the section passes the
    filter, has other than nineteen fields and a content that tokenizes. *)
Theorem ParseEPPFromString_returns (content : string)
    (options : ParseOptions) :
  (∃ doc, ParseEPPFromString content options = Returned doc) ↔
  (∃ fields, ParseCSVLine (Info (ParseSections content)) = Returned fields) ∧
  Forall (sectionReady options) (Sections (ParseSections content)).
Proof.
  rewrite <- (sectionLoop_ready options _ (mkLoopState Invoice_zero [])).
  unfold ParseEPPFromString.
  destruct (ParseCSVLine (Info (ParseSections content))) as [fields|e|p];
    cbn.
  2,3: split; [by intros [? ?]|by intros [[? ?] _]].
  destruct (parseInfo_Returned fields) as [infoMap ->]. cbn.
  destruct (sectionLoop _ _ _) as [st|e|p]; cbn.
  - split; [intros _|by eexists]. split; by eexists.
  - split; [by intros [? ?]|by intros [_ [? ?]]].
  - split; [by intros [? ?]|by intros [_ [? ?]]].
Qed.

Lemma processSection_stops (options : ParseOptions) (st : loopState)
    (section : Section_) :
  match processSection options st section with
  | Returned _ => True
  | Failed e => ∃ p c, e = PhaseError p (CSVReadError c)
  | Panicked p => p = IndexOutOfRange 19 19
  end.
Proof.
  rewrite processSection_eval.
  destruct (String.eqb _ ""); [done|].
  destruct (ParseCSVLine_cases (strings.TrimSpace (Header section)))
    as [[fields ->]|[c ->]]; [|by eexists _, _].
  destruct (passesFilter options section); [|done].
  destruct (length fields =? 19); [done|].
  by destruct (ParseCSVLine_cases (Content section))
    as [[contentFields ->]|[c ->]]; [|eexists _, _].
Qed.

Lemma sectionLoop_stops (options : ParseOptions) (sections : list Section_)
    (st : loopState) :
  match sectionLoop options sections st with
  | Returned _ => True
  | Failed e => ∃ p c, e = PhaseError p (CSVReadError c)
  | Panicked p => p = IndexOutOfRange 19 19
  end.
Proof.
  revert st. induction sections as [|section sections IH]; intros st;
    cbn [sectionLoop]; [done|].
  pose proof (processSection_stops options st section) as Hstep.
  destruct (processSection options st section) as [st1|e|p]; cbn; [|done..].
  apply IH.
Qed.

(** X13: the only error [ParseEPPFromString] returns is a tokenizer error
    wrapped in the message of its phase, and the only panic it can stop
    in is the read of index 19 in a header of nineteen fields. *)
Theorem ParseEPPFromString_stops (content : string) (options : ParseOptions) :
  match ParseEPPFromString content options with
  | Returned _ => True
  | Failed e => ∃ p c, e = PhaseError p (CSVReadError c)
  | Panicked p => p = IndexOutOfRange 19 19
  end.
Proof.
  unfold ParseEPPFromString.
  destruct (ParseCSVLine_cases (Info (ParseSections content)))
    as [[fields ->]|[c ->]]; cbn [wrapError mbind outcome_bind];
    [|by eexists _, _].
  destruct (parseInfo_Returned fields) as [infoMap ->].
  cbn [mbind outcome_bind].
  pose proof (sectionLoop_stops options (Sections (ParseSections content))
                (mkLoopState Invoice_zero [])) as Hloop.
  by destruct (sectionLoop _ _ _) as [st|e|p].
Qed.

(** The lookups of the info map, key by key. *)
Ltac info_key key :=
  cbn;
  destruct (String.eqb_spec key "version") as [->|?];
  [|destruct (String.eqb_spec key "system") as [->|?];
    [|destruct (String.eqb_spec key "company") as [->|?]]];
  repeat first
    [ rewrite lookup_insert_eq
    | rewrite lookup_insert_ne by (done || congruence)
    | rewrite lookup_empty ];
  try done.

Lemma parseInfo_lookup (fields : list string) (infoMap : gmap string string)
    (key : string) :
  parseInfo fields = Returned infoMap →
  infoMap !! key =
    if length fields <? 2 then None
    else if String.eqb key "version" then fields !! 0
    else if String.eqb key "system" then fields !! 3
    else if String.eqb key "company" then fields !! 5
    else None.
Proof.
  intros Hinfo.
  do 6 (destruct fields as [|? fields];
        [injection Hinfo as <-; info_key key|]).
  injection Hinfo as <-. info_key key.
Qed.

(** X14: the info map of a returned document holds "version", "system"
    and "company" and nothing else: the fields 0, 3 and 5 of the info line,
    those that exist, and nothing at all when the line has one field
    only. *)
Theorem returned_info_map (content : string) (options : ParseOptions)
    (doc : EPPData) :
  ParseEPPFromString content options = Returned doc →
  ∃ fields,
    ParseCSVLine (Info (ParseSections content)) = Returned fields ∧
    ∀ key,
      InfoMap doc !! key =
        if length fields <? 2 then None
        else if String.eqb key "version" then fields !! 0
        else if String.eqb key "system" then fields !! 3
        else if String.eqb key "company" then fields !! 5
        else None.
Proof.
  unfold ParseEPPFromString.
  destruct (ParseCSVLine (Info (ParseSections content))) as [fields|e|p];
    cbn [wrapError mbind outcome_bind]; [|done..].
  destruct (parseInfo fields) as [infoMap|e|p] eqn:Hinfo;
    cbn [mbind outcome_bind]; [|done..].
  destruct (sectionLoop _ _ _) as [st|e|p]; cbn [mbind outcome_bind];
    [|done..].
  intros [= <-]. exists fields. split; [done|]. intros key. cbn [InfoMap].
  by apply parseInfo_lookup.
Qed.

(** ** Documents without an info marker *)

Lemma occurs_Join_first (sep first : string) (rest : list string)
    (t : string) :
  occurs t first → occurs t (strings.Join (first :: rest) sep).
Proof.
  intros (b & a & ->). destruct rest as [|r rest]; [by exists b, a|].
  exists b, (a +:+ sep +:+ strings.Join (r :: rest) sep).
  change (strings.Join ((b +:+ t +:+ a) :: r :: rest) sep)
    with ((b +:+ t +:+ a) +:+ sep +:+ strings.Join (r :: rest) sep).
  by rewrite !append_assoc.
Qed.

(** X15: a text that holds no [INFO] marker is no document: the info line
    is empty, the tokenizer reports the end of input on it, and
    [ParseEPPFromString] returns that error, whatever sections follow. *)
Theorem ParseEPPFromString_without_info (content : string)
    (options : ParseOptions) :
  ¬ occurs infoTag content →
  ParseEPPFromString content options =
    Failed (PhaseError InfoPhase (CSVReadError EOF)).
Proof.
  intros Hno. apply ParseEPPFromString_no_info.
  destruct (Split_spec content headerTag)
    as (preamble & blocks & Hs & Hj & _); [done|].
  eapply ParseSections_no_marker; [exact Hs|].
  intros Hocc. apply Hno. rewrite <- Hj. by apply occurs_Join_first.
Qed.

(** ** The types of the returned invoices *)

Lemma filter_types_length (invoices : list Invoice) :
  Forall (λ invoice,
            Type_ invoice = "FZ" ∨ Type_ invoice = "FS" ∨
            Type_ invoice = "KFZ" ∨ Type_ invoice = "KFS") invoices →
  length (FilterInvoices invoices "FZ") +
  length (FilterInvoices invoices "FS") +
  length (FilterInvoices invoices "KFZ") +
  length (FilterInvoices invoices "KFS") = length invoices.
Proof.
  rewrite !FilterInvoices_filter.
  induction 1 as [|invoice invoices Htype _ IH]; [done|].
  cbn [List.filter length].
  destruct Htype as [-> | [-> | [-> | ->]]]; cbn; lia.
Qed.

(** X16: the four types partition the invoices of a returned document:
    what [FilterInvoices] keeps for "FZ", "FS", "KFZ" and "KFS" adds up to
    the whole list. *)
Theorem returned_invoices_partition (content : string)
    (options : ParseOptions) (doc : EPPData) :
  ParseEPPFromString content options = Returned doc →
  length (FilterInvoices (Invoices doc) "FZ") +
  length (FilterInvoices (Invoices doc) "FS") +
  length (FilterInvoices (Invoices doc) "KFZ") +
  length (FilterInvoices (Invoices doc) "KFS") = length (Invoices doc).
Proof.
  intros Htypes%invoices_typed. apply filter_types_length.
  eapply Forall_impl; [exact Htypes|]. cbn. tauto.
Qed.

(** ** The flags only filter *)

Lemma shouldInclude_fewer (options options' : ParseOptions)
    (invoiceType : string) :
  (IncludeFZ options' = true → IncludeFZ options = true) →
  (IncludeFS options' = true → IncludeFS options = true) →
  shouldInclude options' invoiceType = true →
  shouldInclude options invoiceType = true.
Proof.
  intros HFZ HFS. rewrite !(shouldInclude_true strconv_ParseFloat). tauto.
Qed.

Lemma passesFilter_fewer (options options' : ParseOptions)
    (section : Section_) :
  (IncludeFZ options' = true → IncludeFZ options = true) →
  (IncludeFS options' = true → IncludeFS options = true) →
  passesFilter options' section = true →
  passesFilter options section = true.
Proof.
  intros HFZ HFS. unfold passesFilter.
  destruct (String.eqb _ ""); [done|].
  destruct (ParseCSVLine _) as [[|invoiceType fields]| |]; try done.
  by apply shouldInclude_fewer.
Qed.

Lemma sectionReady_fewer (options options' : ParseOptions)
    (section : Section_) :
  (IncludeFZ options' = true → IncludeFZ options = true) →
  (IncludeFS options' = true → IncludeFS options = true) →
  sectionReady options section → sectionReady options' section.
Proof.
  intros HFZ HFS [Hempty|(fields & Hfields & Hready)]; [by left|].
  right. exists fields. split; [done|]. intros Hpass. apply Hready.
  by eapply passesFilter_fewer.
Qed.

Lemma built_passesFilter (options : ParseOptions) (section : Section_)
    (invoice : Invoice) :
  built section invoice →
  passesFilter options section = shouldInclude options (Type_ invoice).
Proof.
  intros (fields & contentFields & Hfields & _ & _ & ->).
  rewrite Type_set_Items. unfold passesFilter. rewrite Hfields.
  destruct (String.eqb_spec (strings.TrimSpace (Header section)) "")
    as [Hline|_].
  { by rewrite Hline, ParseCSVLine_empty in Hfields. }
  destruct fields as [|invoiceType fields]; [|done].
  by destruct options as [[] []].
Qed.

Lemma built_fewer (options options' : ParseOptions)
    (sections : list Section_) (invoices invoices' : list Invoice) :
  (∀ section, passesFilter options' section = true →
              passesFilter options section = true) →
  Forall2 built (List.filter (passesFilter options) sections) invoices →
  Forall2 built (List.filter (passesFilter options') sections) invoices' →
  invoices' =
    List.filter (λ invoice, shouldInclude options' (Type_ invoice)) invoices.
Proof.
  intros Hfewer. revert invoices invoices'.
  induction sections as [|section sections IH]; intros invoices invoices';
    cbn [List.filter].
  { intros Hall Hall'. by inversion Hall; inversion Hall'. }
  specialize (Hfewer section) as Hsection.
  destruct (passesFilter options section) eqn:Hpass.
  - intros Hall. inversion Hall as [|? invoice ? rest Hbuilt Hrest]; subst.
    cbn [List.filter].
    rewrite <- (built_passesFilter options' section invoice Hbuilt).
    destruct (passesFilter options' section).
    + intros Hall'.
      inversion Hall' as [|? invoice' ? rest' Hbuilt' Hrest']; subst.
      rewrite (built_functional _ _ _ Hbuilt' Hbuilt). f_equal. by apply IH.
    + by apply IH.
  - destruct (passesFilter options' section); [by specialize (Hsection eq_refl)|].
    by apply IH.
Qed.

(** X17: the flags only filter.  When the text parses under some options,
    it parses under any options with fewer flags, to the same info map and
    to the invoices whose type these options include. *)
Theorem ParseEPPFromString_fewer_flags (content : string)
    (options options' : ParseOptions) (doc : EPPData) :
  (IncludeFZ options' = true → IncludeFZ options = true) →
  (IncludeFS options' = true → IncludeFS options = true) →
  ParseEPPFromString content options = Returned doc →
  ParseEPPFromString content options' =
    Returned
      {| InfoMap := InfoMap doc;
         Invoices :=
           List.filter (λ invoice, shouldInclude options' (Type_ invoice))
             (Invoices doc) |}.
Proof.
  intros HFZ HFS. unfold ParseEPPFromString.
  destruct (ParseCSVLine (Info (ParseSections content))) as [fields|e|p];
    cbn [wrapError mbind outcome_bind]; [|done..].
  destruct (parseInfo fields) as [infoMap|e|p]; cbn [mbind outcome_bind];
    [|done..].
  destruct (sectionLoop options _ _) as [st|e|p] eqn:Hloop;
    cbn [mbind outcome_bind]; [|done..].
  intros [= <-]. cbn [InfoMap Invoices].
  assert (∃ st', sectionLoop options' (Sections (ParseSections content))
                   (mkLoopState Invoice_zero []) = Returned st')
    as [st' Hloop'].
  { apply sectionLoop_ready.
    eapply Forall_impl; [by eapply sectionLoop_ready; eexists|].
    intros section. by apply sectionReady_fewer. }
  rewrite Hloop'. cbn [mbind outcome_bind mret outcome_ret]. do 2 f_equal.
  apply (sectionLoop_Returned strconv_ParseFloat) in Hloop
    as (added & Hall & _ & Heq).
  apply (sectionLoop_Returned strconv_ParseFloat) in Hloop'
    as (added' & Hall' & _ & Heq').
  rewrite settled_initial in Heq, Heq'. cbn [app] in Heq, Heq'.
  unfold settled in Heq, Heq'. rewrite Heq, Heq'.
  eapply built_fewer; [by intros section; apply passesFilter_fewer| |].
  - eapply Forall2_impl; [exact Hall|]. intros ? ?. apply contributes_built.
  - eapply Forall2_impl; [exact Hall'|]. intros ? ?. apply contributes_built.
Qed.

(** ** The item mapper *)

Lemma itemTable_take (fields : list string) :
  itemTable (take 8 fields) = itemTable fields.
Proof.
  do 8 (destruct fields as [|? fields]; [reflexivity|]). reflexivity.
Qed.

(** X18: [ParseItem] never fails: it returns the item table of its
    fields, and it reads the first eight fields only, so that a second
    item on the same row is not seen. *)
Theorem ParseItem_first_eight (fields : list string) :
  ParseItem fields = Returned (itemTable fields) ∧
  ParseItem (take 8 fields) = ParseItem fields.
Proof.
  split; [apply ParseItem_eval|].
  by rewrite !ParseItem_eval, itemTable_take.
Qed.

(** ** Documents of plain rows *)

Lemma plainRow_ParseCSVLine (fields : list string) :
  plainRow fields →
  ParseCSVLine (strings.Join fields ",") = Returned fields.
Proof.
  intros (Hall & Hne & _ & _). by apply (ParseCSVLine_row fields EmptyString).
Qed.

Lemma processSection_row (options : ParseOptions) (st : loopState)
    (row : list string * list string) :
  plainRow row.1 → plainRow row.2 → length row.1 ≠ 19 →
  processSection options st (trimSection (sectionOf row)) =
    Returned
      (if shouldInclude options (stringAt row.1 0)
       then mkLoopState (set_Items [itemTable row.2] (headerTable row.1))
              (settled st)
       else st).
Proof.
  intros Hh Hc Hlen. rewrite processSection_eval. unfold passesFilter.
  cbn [trimSection sectionOf Header Content].
  destruct Hh as (Hh & Hne & Hb & Htrim). rewrite !Htrim.
  destruct Hc as (Hc & Hnec & Hbc & Htrimc). rewrite Htrimc.
  apply String.eqb_neq in Hne as Hneb. rewrite Hneb.
  rewrite (proj1 (ParseCSVLine_row _ EmptyString Hh Hne)),
    (proj1 (ParseCSVLine_row _ EmptyString Hc Hnec)).
  destruct row.1 as [|invoiceType fields] eqn:Hrow; [done|].
  cbn [stringAt lookup list_lookup default from_option id].
  destruct (shouldInclude options invoiceType); [|done].
  by destruct (Nat.eqb_spec (length (invoiceType :: fields)) 19).
Qed.

Lemma sectionLoop_rows (options : ParseOptions)
    (rows : list (list string * list string)) (st : loopState) :
  Forall (λ row, plainRow row.1 ∧ plainRow row.2 ∧ length row.1 ≠ 19) rows →
  ∃ st',
    sectionLoop options (trimSection ∘ sectionOf <$> rows) st = Returned st' ∧
    settled st' =
      settled st ++
      ((λ row, set_Items [itemTable row.2] (headerTable row.1))
         <$> List.filter (λ row, shouldInclude options (stringAt row.1 0)) rows).
Proof.
  intros Hall. revert st.
  induction Hall as [|row rows (Hh & Hc & Hlen) _ IH]; intros st.
  { exists st. by rewrite app_nil_r. }
  cbn [fmap list_fmap compose sectionLoop List.filter].
  rewrite processSection_row by done. cbn [mbind outcome_bind].
  destruct (shouldInclude options (stringAt row.1 0)) eqn:Hinc; [|apply IH].
  destruct (IH (mkLoopState (set_Items [itemTable row.2] (headerTable row.1))
                  (settled st))) as (st' & Hloop & Hsettled).
  exists st'. split; [done|].
  rewrite Hsettled, settled_started, <- app_assoc; [done|].
  rewrite Type_set_Items. by apply shouldInclude_nonempty in Hinc.
Qed.

(** X25: a document of plain rows parses to what it spells.  On the
    text of an info row and of sections made of one header row and one
    item row each, no header having nineteen fields, [ParseEPPFromString]
    returns the info map of the info row and, for the rows whose type the
    options include and in their order, the header table holding the item
    table. *)
Theorem ParseEPPFromString_renderDocument (options : ParseOptions)
    (infoFields : list string) (rows : list (list string * list string)) :
  plainRow infoFields →
  Forall (λ row, plainRow row.1 ∧ plainRow row.2 ∧ length row.1 ≠ 19) rows →
  ∃ infoMap,
    parseInfo infoFields = Returned infoMap ∧
    ParseEPPFromString
      (renderDocument (strings.Join infoFields ",") (sectionOf <$> rows))
      options =
    Returned
      {| InfoMap := infoMap;
         Invoices :=
           (λ row, set_Items [itemTable row.2] (headerTable row.1))
             <$> List.filter
                   (λ row, shouldInclude options (stringAt row.1 0)) rows |}.
Proof.
  intros Hinfo Hrows.
  destruct (parseInfo_Returned infoFields) as [infoMap HinfoMap].
  exists infoMap. split; [done|]. unfold ParseEPPFromString.
  rewrite ParseSections_rendered.
  - cbn [Info Sections]. destruct Hinfo as (Hall & Hne & _ & ->).
    rewrite (proj1 (ParseCSVLine_row _ EmptyString Hall Hne)).
    cbn [wrapError mbind outcome_bind]. rewrite HinfoMap.
    cbn [mbind outcome_bind].
    destruct (sectionLoop_rows options rows (mkLoopState Invoice_zero [])
                Hrows) as (st' & Hloop & Hsettled).
    rewrite <- list_fmap_compose, Hloop. cbn [mbind outcome_bind].
    rewrite settled_initial in Hsettled. cbn [app] in Hsettled.
    unfold settled in Hsettled. by rewrite Hsettled.
  - by destruct Hinfo as (_ & _ & ? & _).
  - apply Forall_fmap. eapply Forall_impl; [exact Hrows|].
    intros row ((_ & _ & ? & _) & (_ & _ & ? & _) & _). by split.
Qed.

(** ** The statistics [main] prints *)

Lemma FilterInvoices_none (invoices : list Invoice) (invoiceType : string) :
  Forall (λ invoice, Type_ invoice ≠ invoiceType) invoices →
  FilterInvoices invoices invoiceType = [].
Proof.
  rewrite FilterInvoices_filter.
  induction 1 as [|invoice invoices Hne%String.eqb_neq _ IH]; [done|].
  cbn [List.filter]. by rewrite Hne.
Qed.

(** X26: the two counts of [GetInvoiceStats] on a returned document never
    exceed the number of its invoices, and add up to it when both flags
    are off; with a flag on, the credit notes "KFZ" and "KFS" are invoices
    of the document that neither count covers. *)
Theorem returned_stats (content : string) (options : ParseOptions)
    (doc : EPPData) :
  ParseEPPFromString content options = Returned doc →
  (Z.of_nat (length (Invoices doc)) < 2 ^ 63)%Z →
  ((GetInvoiceStats doc).1 + (GetInvoiceStats doc).2
   ≤ Z.of_nat (length (Invoices doc)))%Z ∧
  (IncludeFZ options = false → IncludeFS options = false →
   ((GetInvoiceStats doc).1 + (GetInvoiceStats doc).2
    = Z.of_nat (length (Invoices doc)))%Z).
Proof.
  intros Htypes%invoices_typed Hlen. unfold GetInvoiceStats.
  rewrite GetInvoiceStats_from by lia. cbn [fst snd].
  assert (length (FilterInvoices (Invoices doc) "FZ") +
          length (FilterInvoices (Invoices doc) "FS") +
          length (FilterInvoices (Invoices doc) "KFZ") +
          length (FilterInvoices (Invoices doc) "KFS")
          = length (Invoices doc)) as Hsum.
  { apply filter_types_length.
    eapply Forall_impl; [exact Htypes|]. cbn. tauto. }
  split; [lia|]. intros HFZ HFS.
  rewrite (FilterInvoices_none _ "KFZ"), (FilterInvoices_none _ "KFS") in Hsum.
  - cbn [length] in Hsum. lia.
  - eapply Forall_impl; [exact Htypes|]. cbn.
    intros invoice [-> | [-> | [[_ ?] | [_ ?]]]]; congruence.
  - eapply Forall_impl; [exact Htypes|]. cbn.
    intros invoice [-> | [-> | [[_ ?] | [_ ?]]]]; congruence.
Qed.

End Assembler.

(** ** The further properties on the sample inputs *)

Lemma GetInvoiceStats_counts_sample :
  (Z.of_nat (length (Invoices sampleData)) < 2 ^ 63)%Z ∧
  GetInvoiceStats sampleData =
    (Z.of_nat (length (FilterInvoices (Invoices sampleData) "FZ")),
     Z.of_nat (length (FilterInvoices (Invoices sampleData) "FS"))).
Proof.
  assert (Z.of_nat (length (Invoices sampleData)) < 2 ^ 63)%Z as Hlen
    by (vm_compute; reflexivity).
  split; [assumption|].
  exact (GetInvoiceStats_counts sampleData Hlen).
Defined.

Lemma GetInvoicesByContractor_narrows_sample :
  occurs "K" "K1" ∧
  sublist (GetInvoicesByContractor (Invoices sampleData) "K1")
          (GetInvoicesByContractor (Invoices sampleData) "K").
Proof.
  assert (occurs "K" "K1") as Hocc by (exists "", "1"; reflexivity).
  split; [assumption|].
  exact (GetInvoicesByContractor_narrows (Invoices sampleData) "K" "K1" Hocc).
Defined.

Lemma GetInvoicesByDateRange_empty_range_sample :
  time.Before (time.mkTime 2023 7 1 0 0 0 0) (time.mkTime 2023 6 1 0 0 0 0)
    = false ∧
  GetInvoicesByDateRange sampleInvoices
    (time.mkTime 2023 7 1 0 0 0 0) (time.mkTime 2023 6 1 0 0 0 0) = [].
Proof.
  assert (time.Before (time.mkTime 2023 7 1 0 0 0 0)
            (time.mkTime 2023 6 1 0 0 0 0) = false) as Hnot
    by (vm_compute; reflexivity).
  split; [assumption|].
  exact (GetInvoicesByDateRange_empty_range sampleInvoices _ _ Hnot).
Defined.

Lemma returned_invoices_built_sample :
  ParseEPPFromString decimalLiteral sampleDocument DefaultParseOptions
    = Returned sampleData ∧
  Forall2 (built decimalLiteral)
    (List.filter (passesFilter DefaultParseOptions)
       (Sections (ParseSections sampleDocument)))
    (Invoices sampleData).
Proof.
  assert (ParseEPPFromString decimalLiteral sampleDocument DefaultParseOptions
          = Returned sampleData) as Hdoc by (vm_compute; reflexivity).
  split; [assumption|].
  exact (returned_invoices_built decimalLiteral sampleDocument
           DefaultParseOptions sampleData Hdoc).
Defined.

Lemma returned_invoice_types_sample :
  ParseEPPFromString decimalLiteral sampleDocument DefaultParseOptions
    = Returned sampleData ∧
  Forall (λ invoice,
            Type_ invoice = "FZ" ∨ Type_ invoice = "FS" ∨
            (Type_ invoice = "KFZ" ∧ IncludeFZ DefaultParseOptions = true) ∨
            (Type_ invoice = "KFS" ∧ IncludeFS DefaultParseOptions = true))
         (Invoices sampleData).
Proof.
  assert (ParseEPPFromString decimalLiteral sampleDocument DefaultParseOptions
          = Returned sampleData) as Hdoc by (vm_compute; reflexivity).
  split; [assumption|].
  exact (returned_invoice_types decimalLiteral sampleDocument
           DefaultParseOptions sampleData Hdoc).
Defined.

Lemma returned_invoices_no_document_number_sample :
  ParseEPPFromString decimalLiteral sampleDocument DefaultParseOptions
    = Returned sampleData ∧
  Forall (λ invoice, DocumentNumber invoice = "") (Invoices sampleData).
Proof.
  assert (ParseEPPFromString decimalLiteral sampleDocument DefaultParseOptions
          = Returned sampleData) as Hdoc by (vm_compute; reflexivity).
  split; [assumption|].
  exact (returned_invoices_no_document_number decimalLiteral sampleDocument
           DefaultParseOptions sampleData Hdoc).
Defined.

Lemma returned_info_map_sample :
  ParseEPPFromString decimalLiteral sampleDocument DefaultParseOptions
    = Returned sampleData ∧
  ∃ fields,
    ParseCSVLine (Info (ParseSections sampleDocument)) = Returned fields ∧
    ∀ key,
      InfoMap sampleData !! key =
        if length fields <? 2 then None
        else if String.eqb key "version" then fields !! 0
        else if String.eqb key "system" then fields !! 3
        else if String.eqb key "company" then fields !! 5
        else None.
Proof.
  assert (ParseEPPFromString decimalLiteral sampleDocument DefaultParseOptions
          = Returned sampleData) as Hdoc by (vm_compute; reflexivity).
  split; [assumption|].
  exact (returned_info_map decimalLiteral sampleDocument
           DefaultParseOptions sampleData Hdoc).
Defined.

Lemma ParseEPPFromString_without_info_sample :
  ¬ occurs infoTag headlessDocument ∧
  ParseEPPFromString decimalLiteral headlessDocument DefaultParseOptions =
    Failed (PhaseError InfoPhase (CSVReadError EOF)).
Proof.
  assert (¬ occurs infoTag headlessDocument) as Hno
    by (apply Index_None; reflexivity).
  split; [assumption|].
  exact (ParseEPPFromString_without_info decimalLiteral headlessDocument
           DefaultParseOptions Hno).
Defined.

Lemma returned_invoices_partition_sample :
  ParseEPPFromString decimalLiteral sampleDocument DefaultParseOptions
    = Returned sampleData ∧
  length (FilterInvoices (Invoices sampleData) "FZ") +
  length (FilterInvoices (Invoices sampleData) "FS") +
  length (FilterInvoices (Invoices sampleData) "KFZ") +
  length (FilterInvoices (Invoices sampleData) "KFS")
    = length (Invoices sampleData).
Proof.
  assert (ParseEPPFromString decimalLiteral sampleDocument DefaultParseOptions
          = Returned sampleData) as Hdoc by (vm_compute; reflexivity).
  split; [assumption|].
  exact (returned_invoices_partition decimalLiteral sampleDocument
           DefaultParseOptions sampleData Hdoc).
Defined.

Lemma ParseEPPFromString_fewer_flags_sample :
  ParseEPPFromString decimalLiteral sampleDocument DefaultParseOptions
    = Returned sampleData ∧
  ParseEPPFromString decimalLiteral sampleDocument (mkParseOptions false false)
    = Returned
        {| InfoMap := InfoMap sampleData;
           Invoices :=
             List.filter
               (λ invoice,
                  shouldInclude (mkParseOptions false false) (Type_ invoice))
               (Invoices sampleData) |}.
Proof.
  assert (ParseEPPFromString decimalLiteral sampleDocument DefaultParseOptions
          = Returned sampleData) as Hdoc by (vm_compute; reflexivity).
  split; [assumption|].
  apply (ParseEPPFromString_fewer_flags decimalLiteral sampleDocument
           DefaultParseOptions (mkParseOptions false false) sampleData).
  - intros _. reflexivity.
  - intros _. reflexivity.
  - exact Hdoc.
Defined.

Lemma ParseSections_without_header_sample :
  ¬ occurs headerTag infoOnlyDocument ∧
  Sections (ParseSections infoOnlyDocument) = [] ∧
  preambleInfo infoOnlyDocument (Info (ParseSections infoOnlyDocument)).
Proof.
  assert (¬ occurs headerTag infoOnlyDocument) as Hno
    by (apply Index_None; reflexivity).
  split; [assumption|].
  exact (ParseSections_without_header infoOnlyDocument Hno).
Defined.

Lemma ParseSections_renderDocument_sample :
  noBracket " 1.05,3 " = true ∧
  Forall (λ section, noBracket (Header section) = true ∧
                     noBracket (Content section) = true) sampleSections ∧
  ParseSections (renderDocument " 1.05,3 " sampleSections) =
    {| Info := strings.TrimSpace " 1.05,3 ";
       Sections := trimSection <$> sampleSections |}.
Proof.
  assert (noBracket " 1.05,3 " = true) as Hinfo by reflexivity.
  assert (Forall (λ section, noBracket (Header section) = true ∧
                             noBracket (Content section) = true)
            sampleSections) as Hall
    by (repeat constructor).
  split; [assumption|]. split; [assumption|].
  exact (ParseSections_renderDocument " 1.05,3 " sampleSections Hinfo Hall).
Defined.

Lemma ParseDate_month_key_sample :
  time.IsZero (ParseDate "20230615143000") = false ∧
  time.Format_2006_01 (ParseDate "20230615143000") =
    strings.slice_to "20230615143000" 4 +:+ "-" +:+
    strings.slice_to (strings.slice_from "20230615143000" 4) 2.
Proof.
  assert (time.IsZero (ParseDate "20230615143000") = false) as Hz
    by (vm_compute; reflexivity).
  split; [assumption|].
  exact (ParseDate_month_key "20230615143000" Hz).
Defined.

Lemma ParseCSVLine_first_row_sample :
  Forall (λ field, plainField field = true) ["23"; "1"; "100.00"; ""] ∧
  strings.Join ["23"; "1"; "100.00"; ""] "," ≠ "" ∧
  ParseCSVLine (strings.Join ["23"; "1"; "100.00"; ""] ",")
    = Returned ["23"; "1"; "100.00"; ""] ∧
  ParseCSVLine
    (strings.Join ["23"; "1"; "100.00"; ""] "," +:+ newline +:+ "8,2,50.00")
    = Returned ["23"; "1"; "100.00"; ""].
Proof.
  assert (Forall (λ field, plainField field = true)
            ["23"; "1"; "100.00"; ""]) as Hall by (repeat constructor).
  assert (strings.Join ["23"; "1"; "100.00"; ""] "," ≠ "") as Hne
    by (vm_compute; discriminate).
  split; [assumption|]. split; [assumption|].
  exact (ParseCSVLine_first_row ["23"; "1"; "100.00"; ""] "8,2,50.00"
           Hall Hne).
Defined.

Lemma ParseEPPFromString_renderDocument_sample :
  plainRow sampleInfoRow ∧
  Forall (λ row, plainRow row.1 ∧ plainRow row.2 ∧ length row.1 ≠ 19)
    sampleRows ∧
  ∃ infoMap,
    parseInfo sampleInfoRow = Returned infoMap ∧
    ParseEPPFromString decimalLiteral
      (renderDocument (strings.Join sampleInfoRow ",")
         (sectionOf <$> sampleRows))
      DefaultParseOptions =
    Returned
      {| InfoMap := infoMap;
         Invoices :=
           (λ row, set_Items [itemTable decimalLiteral row.2]
                     (headerTable decimalLiteral row.1))
             <$> List.filter
                   (λ row, shouldInclude DefaultParseOptions
                             (stringAt row.1 0)) sampleRows |}.
Proof.
  assert (∀ fields,
            forallb plainField fields = true →
            strings.Join fields "," ≠ "" →
            noBracket (strings.Join fields ",") = true →
            strings.TrimSpace (strings.Join fields ",")
              = strings.Join fields "," →
            plainRow fields) as Hrow.
  { intros fields Hall Hne Hb Htrim. split; [|by repeat split].
    apply List.Forall_forall. by apply forallb_forall. }
  assert (plainRow sampleInfoRow) as Hinfo
    by (apply Hrow; vm_compute; (reflexivity || discriminate)).
  assert (Forall (λ row, plainRow row.1 ∧ plainRow row.2 ∧ length row.1 ≠ 19)
            sampleRows) as Hrows.
  { repeat constructor;
      try (apply Hrow; vm_compute; (reflexivity || discriminate));
      vm_compute; discriminate. }
  split; [assumption|]. split; [assumption|].
  exact (ParseEPPFromString_renderDocument decimalLiteral DefaultParseOptions
           sampleInfoRow sampleRows Hinfo Hrows).
Defined.

Lemma returned_stats_sample :
  ParseEPPFromString decimalLiteral sampleDocument DefaultParseOptions
    = Returned sampleData ∧
  (Z.of_nat (length (Invoices sampleData)) < 2 ^ 63)%Z ∧
  ((GetInvoiceStats sampleData).1 + (GetInvoiceStats sampleData).2
   ≤ Z.of_nat (length (Invoices sampleData)))%Z ∧
  (IncludeFZ DefaultParseOptions = false →
   IncludeFS DefaultParseOptions = false →
   ((GetInvoiceStats sampleData).1 + (GetInvoiceStats sampleData).2
    = Z.of_nat (length (Invoices sampleData)))%Z).
Proof.
  assert (ParseEPPFromString decimalLiteral sampleDocument DefaultParseOptions
          = Returned sampleData) as Hdoc by (vm_compute; reflexivity).
  assert (Z.of_nat (length (Invoices sampleData)) < 2 ^ 63)%Z as Hlen
    by (vm_compute; reflexivity).
  split; [assumption|]. split; [assumption|].
  exact (returned_stats decimalLiteral sampleDocument DefaultParseOptions
           sampleData Hdoc Hlen).
Defined.
